(** * vApp container and vApp entity resources of the vSphere provider

    A shallow embedding of

    - [vsphere/internal/helper/vappcontainer/vappcontainer_helper.go]
      (package [vappcontainer]),
    - the [vsphere_vapp_container] resource, and
    - the [vsphere_vapp_entity] resource (the last revision found in
      [resource_vsphere_vapp_entity.go]; the file carries two earlier
      revisions of the same declarations in front of it),

    followed by the properties the specification states about them.

    Go values are modelled as follows.  A pointer that the sources
    dereference or build with [&] is an [option]; a nil dereference, a failed
    type assertion and an index out of range are explicit [Panic] outcomes.
    The [(value, error)] result of a call is a [result].  The provider talks
    to vSphere and to the Terraform SDK through calls whose code lives outside
    the reviewed sources; the answers of those calls are read from an
    environment [Env], and every call is recorded, in order, in a trace.
    Debug logging ([log.Printf]) and the [context] time-outs have no
    counterpart here. *)

From Stdlib Require Import ZArith String Ascii List Lia.
From stdpp Require Import base option list gmap strings.

Local Open Scope Z_scope.
Local Open Scope string_scope.

(** ** Go data *)

(** [types.ManagedObjectReference]: the (type, value) pair naming a remote
    object. *)
Record ManagedObjectReference := mkRef {
  Type_ : string;
  Value : string
}.

#[global] Instance ManagedObjectReference_eq_dec : EqDecision ManagedObjectReference.
Proof. solve_decision. Defined.

(** A Go [error]; all the code ever observes of one is its message. *)
Record error := mkError { Error : string }.

#[global] Instance error_eq_dec : EqDecision error.
Proof. solve_decision. Defined.

(** Values boxed in an [interface{}]: what [d.Get] returns and what
    [d.Set] and [structure.SetBatch] receive. *)
Inductive value :=
| VNil
| VString (s : string)
| VInt (n : Z)
| VInt32 (n : Z)
| VBool (b : bool)
| VBoolPtr (b : option bool)
| VOpaque (repr : string).

#[global] Instance value_eq_dec : EqDecision value.
Proof. solve_decision. Defined.

(** [int32(x)] for a Go [int] x: the low 32 bits, read as a signed number. *)
Definition int32 (x : Z) : Z := (x + 2 ^ 31) mod 2 ^ 32 - 2 ^ 31.

(** [object.Common], shared by every govmomi object handle. *)
Record Common := mkCommon {
  Reference : ManagedObjectReference;
  InventoryPath : string
}.

#[global] Instance Common_eq_dec : EqDecision Common.
Proof. solve_decision. Defined.

(** [object.VirtualApp] embeds [*object.ResourcePool], which embeds
    [object.Common]: the handles differ by their Go type only. *)
Definition ResourcePool := Common.
Definition VirtualApp := Common.
Definition Folder := Common.
Definition Datacenter := Common.
Definition VirtualMachine := Common.

(** The dynamic type of an [object.Reference] interface value. *)
Inductive Kind :=
| KVirtualApp | KResourcePool | KFolder | KDatacenter | KVirtualMachine | KOther.

#[global] Instance Kind_eq_dec : EqDecision Kind.
Proof. solve_decision. Defined.

Record ObjectReference := mkObject {
  kind : Kind;
  common : Common
}.

(** [types.VAppEntityConfigInfo], with the fields the sources name. *)
Record VAppEntityConfigInfo := mkEntity {
  Key : option ManagedObjectReference;
  StartOrder : Z;
  StartDelay : Z;
  WaitingForGuest : option bool;
  StartAction : string;
  StopDelay : Z;
  StopAction : string;
  DestroyWithParent : option bool
}.

#[global] Instance VAppEntityConfigInfo_eq_dec : EqDecision VAppEntityConfigInfo.
Proof. solve_decision. Defined.

(** [types.VAppConfigInfo] and [types.VAppConfigSpec]; both carry the
    list [EntityConfig]. *)
Record VAppConfigInfo := mkVAppConfigInfo {
  EntityConfig : list VAppEntityConfigInfo
}.

Record VAppConfigSpec := mkVAppConfigSpec {
  spec_EntityConfig : list VAppEntityConfigInfo
}.

#[global] Instance VAppConfigSpec_eq_dec : EqDecision VAppConfigSpec.
Proof. solve_decision. Defined.

(** [types.SharesInfo], [types.ResourceAllocationInfo] and
    [types.ResourceConfigSpec].  The declarations belong to govmomi; the
    fields are kept as the boxed values that reach [structure.SetBatch]. *)
Record SharesInfo := mkShares {
  Shares_Shares : value;
  Shares_Level : value
}.

Record ResourceAllocationInfo := mkAllocation {
  Reservation : value;
  ExpandableReservation : value;
  Limit : value;
  Shares : SharesInfo
}.

Record ResourceConfigSpec := mkResourceConfigSpec {
  CpuAllocation : ResourceAllocationInfo;
  MemoryAllocation : ResourceAllocationInfo
}.

(** [mo.VirtualApp]: the properties of a vApp container.  The embedded
    [mo.ResourcePool] contributes [Vm], the child pools
    ([props.ResourcePool.ResourcePool]) and [vaProps.ResourcePool.Value]. *)
Record mo_VirtualApp := mkMoVirtualApp {
  Parent : ManagedObjectReference;
  Config : ResourceConfigSpec;
  Vm : list ManagedObjectReference;
  ResourcePool_ResourcePool : list ManagedObjectReference;
  ResourcePool_Value : value;
  VAppConfig : VAppConfigInfo
}.

(** [mo.VirtualMachine]; only the reference of its managed entity is read. *)
Record mo_VirtualMachine := mkMoVirtualMachine {
  ManagedEntity_Reference : ManagedObjectReference
}.

(** [object.Task]. *)
Record Task := mkTask { task_ref : ManagedObjectReference }.

(** The tags client handle; the code only tests it against nil and passes it
    on. *)
Inductive TagsClient := tagsClient.

(** [schema.ResourceData]: the resource ID and the flat attributes. *)
Record ResourceData := mkResourceData {
  Id : string;
  attrs : gmap string value
}.

(** ** Outcomes, traces and the handler monad *)

Inductive panic := IndexOutOfRange | NilDereference | TypeAssertion.

Inductive result (A : Type) :=
| Ok (a : A)
| Err (e : error)
| Panic (p : panic).

Arguments Ok {A} a.
Arguments Err {A} e.
Arguments Panic {A} p.

(** One entry of the trace for every call that leaves the provider. *)
Inductive Call :=
| CValidateVirtualCenter
| CFinderVirtualApp (dc : option Datacenter) (name : string)
| CFinderObjectReference (ref : ManagedObjectReference)
| CProperties (ref : ManagedObjectReference)
| CCreateVApp (va : ResourcePool) (name : string) (resSpec : ResourceConfigSpec)
    (vSpec : VAppConfigSpec) (folder : option Folder)
| CUpdateConfig (va : VirtualApp) (spec : VAppConfigSpec)
| CDestroy (va : VirtualApp)
| CTaskWait (task : Task)
| CResourcePoolFromID (id : string)
| CFolderFromID (id : string)
| CGetDatacenter (name : string)
| CFolderFromPath (path : string) (dc : Datacenter)
| CMoveIntoResourcePool (rp : ResourcePool) (ref : ManagedObjectReference)
| CVirtualMachineFromUUID (uuid : string)
| CVirtualMachineProperties (vm : VirtualMachine)
| CTagsClientIfDefined (d : ResourceData)
| CTagsClient
| CProcessTagDiff (c : TagsClient) (d : ResourceData) (obj : Common)
| CReadTagsForResource (c : TagsClient) (obj : Common) (d : ResourceData).

Record St := mkSt {
  rd : ResourceData;
  trace : list Call
}.

Definition M (A : Type) : Type := St -> result A * St.

Definition ret {A} (a : A) : M A := fun st => (Ok a, st).

Definition bind {A B} (m : M A) (k : A -> M B) : M B :=
  fun st =>
    match m st with
    | (Ok a, st') => k a st'
    | (Err e, st') => (Err e, st')
    | (Panic p, st') => (Panic p, st')
    end.

Notation "'let*' x ':=' m 'in' k" := (bind m (fun x => k))
  (at level 10, x name, m at level 100, k at level 200).
Notation "'exec' m 'in' k" := (bind m (fun _ => k))
  (at level 10, m at level 100, k at level 200).

(** [return err] *)
Definition fail {A} (e : error) : M A := fun st => (Err e, st).

Definition raise {A} (p : panic) : M A := fun st => (Panic p, st).

(** [v, err := f(...)] followed by code that looks at [err] itself. *)
Definition catch {A} (m : M A) : M (error + A) :=
  fun st =>
    match m st with
    | (Ok a, st') => (Ok (inr a), st')
    | (Err e, st') => (Ok (inl e), st')
    | (Panic p, st') => (Panic p, st')
    end.

Definition lift {A} (r : result A) : M A := fun st => (r, st).

Definition record (c : Call) : M unit :=
  fun st => (Ok tt, mkSt (rd st) (trace st ++ [c])).

(** A call returning [(value, error)]. *)
Definition call {A} (c : Call) (answer : error + A) : M A :=
  exec record c in match answer with inl e => fail e | inr a => ret a end.

(** A call returning [error] only. *)
Definition call_ (c : Call) (answer : option error) : M unit :=
  exec record c in match answer with Some e => fail e | None => ret tt end.

(** [*p] *)
Definition deref {A} (p : option A) : M A :=
  match p with Some a => ret a | None => raise NilDereference end.

Definition getData : M ResourceData := fun st => (Ok (rd st), st).

Definition putData (d : ResourceData) : M unit :=
  fun st => (Ok tt, mkSt d (trace st)).

(** [d.SetId(id)] *)
Definition SetId (id : string) : M unit :=
  let* d := getData in putData (mkResourceData id (attrs d)).

(** [l[i]] *)
Definition index {A} (l : list A) (i : nat) : M A :=
  match l !! i with Some a => ret a | None => raise IndexOutOfRange end.

(** [v.(string)] and [v.(int)] *)
Definition as_string (v : value) : M string :=
  match v with VString s => ret s | _ => raise TypeAssertion end.

Definition as_int (v : value) : M Z :=
  match v with VInt n => ret n | _ => raise TypeAssertion end.

(** The type assertion of [obj] to a pointer to [object.VirtualApp]. *)
Definition as_VirtualApp (obj : ObjectReference) : M VirtualApp :=
  match kind obj with KVirtualApp => ret (common obj) | _ => raise TypeAssertion end.

(** Running a handler on resource data [d], from an empty trace. *)
Definition run {A} (m : M A) (d : ResourceData) : result A * St := m (mkSt d []).

Definition outcome {A} (m : M A) (d : ResourceData) : result A := fst (run m d).
Definition calls {A} (m : M A) (d : ResourceData) : list Call := trace (snd (run m d)).
Definition data {A} (m : M A) (d : ResourceData) : ResourceData := rd (snd (run m d)).

(** ** Strings *)

(** [strings.Split(s, sep)] for a one-byte separator. *)
Fixpoint Split (sep : ascii) (s : string) : list string :=
  match s with
  | EmptyString => [EmptyString]
  | String c s' =>
      if Ascii.eqb c sep then EmptyString :: Split sep s'
      else match Split sep s' with
           | [] => [String c EmptyString]
           | p :: ps => String c p :: ps
           end
  end.

(** [strings.SplitN(s, sep, n)] for a one-byte separator and [n >= 0]: at
    most [n] pieces, the last one being the unsplit remainder. *)
Fixpoint SplitN (sep : ascii) (s : string) (n : nat) {struct s} : list string :=
  match n with
  | O => []
  | S O => [s]
  | S (S _ as n') =>
      match s with
      | EmptyString => [EmptyString]
      | String c s' =>
          if Ascii.eqb c sep then EmptyString :: SplitN sep s' n'
          else match SplitN sep s' n with
               | [] => [String c EmptyString]
               | p :: ps => String c p :: ps
               end
      end
  end.

(** Whether the byte [c] occurs in [s]. *)
Fixpoint contains (c : ascii) (s : string) : bool :=
  match s with
  | EmptyString => false
  | String c' s' => Ascii.eqb c' c || contains c s'
  end.

Definition colon : ascii := ":"%char.
Definition slash : ascii := "/"%char.

(** ** The Terraform schema and [d.Get] *)

Inductive ValueType := TypeBool | TypeInt | TypeString | TypeSet | TypeMap.

(** [schema.Schema]; the [Description] texts and the [ValidateFunc]s, which
    the SDK runs before any handler, are left out. *)
Record schema_Schema := mkSchema {
  sType : ValueType;
  Required : bool;
  Optional : bool;
  Computed : bool;
  ForceNew : bool;
  Default : option value
}.

Definition zeroValue (t : ValueType) : value :=
  match t with
  | TypeBool => VBool false
  | TypeInt => VInt 0
  | TypeString => VString ""
  | TypeSet | TypeMap => VNil
  end.

Definition hasType (t : ValueType) (v : value) : bool :=
  match t, v with
  | TypeBool, VBool _ | TypeInt, VInt _ | TypeString, VString _ => true
  | TypeSet, VOpaque _ | TypeMap, VOpaque _ => true
  | _, _ => false
  end.

(** What [d.Get(k)] yields under schema [s]: the stored attribute when it
    has the type the schema gives the key, the zero value of that type
    otherwise, and nil for a key the schema does not have. *)
Definition get_value (s : gmap string schema_Schema) (d : ResourceData) (k : string) : value :=
  match s !! k with
  | None => VNil
  | Some sch =>
      match attrs d !! k with
      | Some v => if hasType (sType sch) v then v else zeroValue (sType sch)
      | None => zeroValue (sType sch)
      end
  end.

Definition Get (s : gmap string schema_Schema) (k : string) : M value :=
  let* d := getData in ret (get_value s d k).

(** [d.GetOk(k)]: the value, and whether it is set to something else than
    the zero value. *)
Definition GetOk (s : gmap string schema_Schema) (k : string) : M (value * bool) :=
  let* d := getData in
  let v := get_value s d k in
  ret (v, match s !! k with
          | None => false
          | Some sch => bool_decide (v <> zeroValue (sType sch))
          end).

(** [schema.ResourceImporter] and [schema.Resource]: function-valued fields
    are nil unless the resource binds them. *)
Record schema_ResourceImporter := mkImporter {
  State : option (M (list ResourceData))
}.

Record schema_Resource := mkResource {
  Create : option (M unit);
  Read : option (M unit);
  Update : option (M unit);
  Delete : option (M unit);
  Importer : option schema_ResourceImporter;
  Schema : gmap string schema_Schema
}.

(** ** The environment *)

(** Answers of the calls whose code is outside the reviewed sources:
    govmomi, the Terraform SDK, and the sibling helper packages of the
    provider ([viapi], [resourcepool], [folder], [virtualmachine],
    [structure], the tag helpers). *)
Record Env := mkEnv {
  (* govmomi *)
  finder_VirtualApp : option Datacenter -> string -> error + VirtualApp;
  finder_ObjectReference : ManagedObjectReference -> error + ObjectReference;
  VirtualApp_Properties : ManagedObjectReference -> error + mo_VirtualApp;
  ResourcePool_CreateVApp :
    ResourcePool -> string -> ResourceConfigSpec -> VAppConfigSpec ->
    option Folder -> error + VirtualApp;
  VirtualApp_UpdateConfig : VirtualApp -> VAppConfigSpec -> option error;
  VirtualApp_Destroy : VirtualApp -> error + Task;
  Task_Wait : Task -> option error;
  Name : Common -> string;
  (* provider helpers *)
  ValidateVirtualCenter : option error;
  IsManagedObjectNotFoundError : error -> bool;
  resourcepool_FromID : string -> error + ResourcePool;
  resourcepool_MoveIntoResourcePool :
    ResourcePool -> ManagedObjectReference -> option error;
  folder_FromID : string -> error + Folder;
  folder_FromPath : string -> Datacenter -> error + Folder;
  getDatacenter : string -> error + Datacenter;
  virtualmachine_FromUUID : string -> error + VirtualMachine;
  virtualmachine_Properties : VirtualMachine -> error + mo_VirtualMachine;
  expandResourcePoolConfigSpec : ResourceData -> option ResourceConfigSpec;
  GetBoolPtr : ResourceData -> string -> option bool;
  tagsClientIfDefined : ResourceData -> error + option TagsClient;
  meta_TagsClient : option TagsClient;
  processTagDiff : TagsClient -> ResourceData -> Common -> option error;
  readTagsForResource : TagsClient -> Common -> ResourceData -> error + ResourceData;
  vSphereTagAttributeKey : string;
  tagsSchema : schema_Schema;
  customattribute_ConfigKey : string;
  customattribute_ConfigSchema : schema_Schema;
  (* Terraform SDK and Go library *)
  Set_error : string -> value -> option error;
  GetChange : ResourceData -> string -> value * value;
  Quote : string -> string
}.

(** [fmt.Errorf(prefix + "%s", err)] *)
Definition Errorf (prefix : string) (err : error) : error :=
  mkError (prefix +:+ Error err).

Section SDK.

Context (env : Env).

(** [d.Set(k, v)]: the SDK either rejects the value or stores it. *)
Definition Set_ (k : string) (v : value) : M unit :=
  match Set_error env k v with
  | Some e => fail e
  | None =>
      let* d := getData in
      putData (mkResourceData (Id d) (<[k := v]> (attrs d)))
  end.

(** Modelled from the spec: [structure.SetBatch] belongs to the provider but
    is not among the reviewed sources.  The spec describes the flattening as
    a getter/setter field mapping whose only failure handling is to propagate
    the underlying error, so the batch is one [d.Set] per attribute, in the
    order a Go [range] happens to visit the map, stopping at the first
    error. *)
Fixpoint SetBatch_list (l : list (string * value)) : M unit :=
  match l with
  | [] => ret tt
  | (k, v) :: l' => exec Set_ k v in SetBatch_list l'
  end.

Definition SetBatch (m : gmap string value) : M unit :=
  SetBatch_list (map_to_list m).

End SDK.

(** ** Package [vappcontainer] *)

Module vappcontainer.

Section WithEnv.

Context (env : Env).

(** [FromPath] returns a VirtualApp via its supplied path. *)
Definition FromPath (name : string) (dc : option Datacenter) : M VirtualApp :=
  call (CFinderVirtualApp dc name) (finder_VirtualApp env dc name).

(** [FromID] locates a VirtualApp by its managed object reference ID. *)
Definition FromID (id : string) : M VirtualApp :=
  let ref := {| Type_ := "VirtualApp"; Value := id |} in
  let* obj := call (CFinderObjectReference ref) (finder_ObjectReference env ref) in
  as_VirtualApp obj.

Definition IsVApp (rp : string) : M bool :=
  let* r := catch (FromID rp) in
  match r with
  | inl _ => ret false
  | inr _ => ret true
  end.

(** The loop of [EntityFromKey] over [c.VAppConfig.EntityConfig]. *)
Fixpoint EntityFromKey_range (key : string) (l : list VAppEntityConfigInfo)
  : result (option VAppEntityConfigInfo) :=
  match l with
  | [] => Ok None
  | e :: l' =>
      match Key e with
      | None => Panic NilDereference
      | Some k =>
          if String.eqb (Value k) key then Ok (Some e)
          else EntityFromKey_range key l'
      end
  end.

(** [EntityFromKey] locates a VAppEntityConfigInfo within a vApp container by
    the string value of its key. *)
Definition EntityFromKey (key : string) (c : mo_VirtualApp)
  : result (option VAppEntityConfigInfo) :=
  EntityFromKey_range key (EntityConfig (VAppConfig c)).

(** [Properties] returns the VirtualApp managed object from its higher-level
    object. *)
Definition Properties (obj : VirtualApp) : M mo_VirtualApp :=
  call (CProperties (Reference obj)) (VirtualApp_Properties env (Reference obj)).

(** [Create] creates a VirtualApp. *)
Definition Create (va : ResourcePool) (name : string)
    (resSpec : option ResourceConfigSpec) (vSpec : option VAppConfigSpec)
    (folder : option Folder) : M VirtualApp :=
  let* rs := deref resSpec in
  let* vs := deref vSpec in
  call (CCreateVApp va name rs vs folder)
       (ResourcePool_CreateVApp env va name rs vs folder).

(** [Update] updates a VirtualApp. *)
Definition Update (va : VirtualApp) (spec : VAppConfigSpec) : M unit :=
  call_ (CUpdateConfig va spec) (VirtualApp_UpdateConfig env va spec).

(** [Delete] destroys a VirtualApp. *)
Definition Delete (va : VirtualApp) : M unit :=
  let* task := call (CDestroy va) (VirtualApp_Destroy env va) in
  call_ (CTaskWait task) (Task_Wait env task).

(** [HasChildren] checks to see if a vApp container has any child items. *)
Definition HasChildren (va : VirtualApp) : M bool :=
  let* props := Properties va in
  if bool_decide (0 < length (Vm props))%nat
     || bool_decide (0 < length (ResourcePool_ResourcePool props))%nat
  then ret true
  else ret false.

End WithEnv.

End vappcontainer.

(** ** Package [vsphere]: the two resources *)

Section Resources.

Context (env : Env).

(** *** [vsphere_vapp_container] *)

Definition resourceVSphereVAppContainerName : string := "vsphere_vapp_container".

(** The schema map of [resourceVSphereVAppContainer].  The two keys taken
    from other packages are Go constants, so the compiler rejects the literal
    if one of them repeats a key spelled out here. *)
Definition resourceVSphereVAppContainerSchema : gmap string schema_Schema :=
  list_to_map [
    ("name", mkSchema TypeString true false false false None);
    ("parent_resource_pool_id", mkSchema TypeString true false false false None);
    ("parent_folder", mkSchema TypeString false true false false None);
    ("cpu_share_level",
      mkSchema TypeString false true false false (Some (VString "normal")));
    ("cpu_shares", mkSchema TypeInt false true true false None);
    ("cpu_reservation", mkSchema TypeInt false true false false (Some (VInt 0)));
    ("cpu_expandable", mkSchema TypeBool false true false false (Some (VBool true)));
    ("cpu_limit", mkSchema TypeInt false true false false (Some (VInt (-1))));
    ("memory_share_level",
      mkSchema TypeString false true false false (Some (VString "normal")));
    ("memory_shares", mkSchema TypeInt false true true false None);
    ("memory_reservation", mkSchema TypeInt false true false false (Some (VInt 0)));
    ("memory_expandable", mkSchema TypeBool false true false false (Some (VBool true)));
    ("memory_limit", mkSchema TypeInt false true false false (Some (VInt (-1))));
    ("resource_pool_id", mkSchema TypeString false false true false None);
    (vSphereTagAttributeKey env, tagsSchema env);
    (customattribute_ConfigKey env, customattribute_ConfigSchema env)
  ].

Definition resourceVSphereVAppContainerClient : M unit :=
  call_ CValidateVirtualCenter (ValidateVirtualCenter env).

Definition resourceVSphereVAppContainerImport : M (list ResourceData) :=
  exec resourceVSphereVAppContainerClient in
  let* d := getData in
  let* va := vappcontainer.FromPath env (Id d) None in
  exec SetId (Value (Reference va)) in
  let* d := getData in
  ret [d].

Definition expandVAppContainerConfigSpec (d : ResourceData) : option ResourceConfigSpec :=
  expandResourcePoolConfigSpec env d.

(** [resourceVSphereVAppContainerApplyTags] processes the tags step for
    both create and update. *)
Definition resourceVSphereVAppContainerApplyTags (va : VirtualApp) : M unit :=
  let* d := getData in
  let* tagsClient := call (CTagsClientIfDefined d) (tagsClientIfDefined env d) in
  match tagsClient with
  | None => ret tt
  | Some c => call_ (CProcessTagDiff c d va) (processTagDiff env c d va)
  end.

(** [resourceVSphereVAppContainerReadTags] reads the tags. *)
Definition resourceVSphereVAppContainerReadTags (va : VirtualApp) : M unit :=
  exec record CTagsClient in
  match meta_TagsClient env with
  | Some c =>
      let* d := getData in
      let* d' := call (CReadTagsForResource c va d) (readTagsForResource env c va d) in
      putData d'
  | None => ret tt
  end.

Definition resourceVSphereVAppContainerCreate : M unit :=
  exec resourceVSphereVAppContainerClient in
  let* v := Get resourceVSphereVAppContainerSchema "parent_resource_pool_id" in
  let* id := as_string v in
  let* prp := call (CResourcePoolFromID id) (resourcepool_FromID env id) in
  let* d := getData in
  let rpSpec := expandVAppContainerConfigSpec d in
  let vaSpec := Some (mkVAppConfigSpec []) in
  let* pf := GetOk resourceVSphereVAppContainerSchema "parent_folder" in
  let* f :=
    if pf.2 then
      let* id := as_string pf.1 in
      call (CFolderFromID id) (folder_FromID env id)
    else
      let* name := index (Split slash (InventoryPath prp)) 1 in
      let* dc := call (CGetDatacenter name) (getDatacenter env name) in
      call (CFolderFromPath "" dc) (folder_FromPath env "" dc) in
  let* v := Get resourceVSphereVAppContainerSchema "name" in
  let* name := as_string v in
  let* va := vappcontainer.Create env prp name rpSpec vaSpec (Some f) in
  exec resourceVSphereVAppContainerApplyTags va in
  SetId (Value (Reference va)).

Definition flattenVAppContainerCPUAllocation (obj : ResourceAllocationInfo) : M unit :=
  SetBatch env (list_to_map [
    ("cpu_reservation", Reservation obj);
    ("cpu_expandable", ExpandableReservation obj);
    ("cpu_limit", Limit obj);
    ("cpu_shares", Shares_Shares (Shares obj));
    ("cpu_share_level", Shares_Level (Shares obj))
  ]).

Definition flattenVAppContainerMemoryAllocation (obj : ResourceAllocationInfo) : M unit :=
  SetBatch env (list_to_map [
    ("memory_reservation", Reservation obj);
    ("memory_expandable", ExpandableReservation obj);
    ("memory_limit", Limit obj);
    ("memory_shares", Shares_Shares (Shares obj));
    ("memory_share_level", Shares_Level (Shares obj))
  ]).

Definition flattenVAppContainerConfigSpec (obj : ResourceConfigSpec) : M unit :=
  exec flattenVAppContainerMemoryAllocation (MemoryAllocation obj) in
  flattenVAppContainerCPUAllocation (CpuAllocation obj).

Definition resourceVSphereVAppContainerRead : M unit :=
  exec resourceVSphereVAppContainerClient in
  let* d := getData in
  let* r := catch (vappcontainer.FromID env (Id d)) in
  match r with
  | inl err =>
      if IsManagedObjectNotFoundError env err then SetId ""
      else fail err
  | inr va =>
      exec resourceVSphereVAppContainerReadTags va in
      exec Set_ env "name" (VString (Name env va)) in
      let* vaProps := vappcontainer.Properties env va in
      exec Set_ env "parent_resource_pool_id" (VString (Value (Parent vaProps))) in
      exec Set_ env "resource_pool_id" (ResourcePool_Value vaProps) in
      flattenVAppContainerConfigSpec (Config vaProps)
  end.

Definition resourceVSphereVAppContainerUpdate : M unit :=
  exec resourceVSphereVAppContainerClient in
  let* d := getData in
  let* va := vappcontainer.FromID env (Id d) in
  exec resourceVSphereVAppContainerApplyTags va in
  let* d := getData in
  let change := GetChange env d "parent_resource_pool_id" in
  exec (if bool_decide (change.1 <> change.2) then
          let* id := as_string change.2 in
          let* p := vappcontainer.FromID env id in
          call_ (CMoveIntoResourcePool p (Reference va))
                (resourcepool_MoveIntoResourcePool env p (Reference va))
        else ret tt) in
  vappcontainer.Update env va (mkVAppConfigSpec []).

Definition resourceVSphereVAppContainerValidateEmpty (va : VirtualApp) : M unit :=
  let* r := catch (vappcontainer.HasChildren env va) in
  match r with
  | inl err => fail (Errorf "error checking contents of resource pool: " err)
  | inr ne =>
      if ne : bool then
        fail (mkError ("resource pool " +:+ Quote env (InventoryPath va) +:+
          " still has children resources. Please move or remove all items before deleting"))
      else ret tt
  end.

Definition resourceVSphereVAppContainerDelete : M unit :=
  exec resourceVSphereVAppContainerClient in
  let* d := getData in
  let* va := vappcontainer.FromID env (Id d) in
  exec resourceVSphereVAppContainerValidateEmpty va in
  vappcontainer.Delete env va.

Definition resourceVSphereVAppContainer : schema_Resource := {|
  Create := Some resourceVSphereVAppContainerCreate;
  Read := Some resourceVSphereVAppContainerRead;
  Update := Some resourceVSphereVAppContainerUpdate;
  Delete := Some resourceVSphereVAppContainerDelete;
  Importer := Some {| State := Some resourceVSphereVAppContainerImport |};
  Schema := resourceVSphereVAppContainerSchema
|}.

(** *** [vsphere_vapp_entity] *)

Definition resourceVSphereVAppEntityName : string := "vsphere_vapp_entity".

Definition resourceVSphereVAppEntitySchema : gmap string schema_Schema :=
  list_to_map [
    ("target_id", mkSchema TypeString true false false true None);
    ("container_id", mkSchema TypeString true false false true None);
    ("start_action",
      mkSchema TypeString false true false false (Some (VString "powerOn")));
    ("start_delay", mkSchema TypeInt false true false false None);
    ("stop_action",
      mkSchema TypeString false true false false (Some (VString "powerOff")));
    ("stop_delay", mkSchema TypeInt false true false false None);
    ("start_order", mkSchema TypeInt false true false false (Some (VInt 1)));
    ("wait_for_guest", mkSchema TypeBool false true false false (Some (VBool false)));
    (vSphereTagAttributeKey env, tagsSchema env);
    (customattribute_ConfigKey env, customattribute_ConfigSchema env)
  ].

Definition resourceVSphereVAppEntityImport : M (list ResourceData) :=
  ret [].

(** The record [resourceVSphereVAppEntityCreate] builds for the new member
    [mor] from the flat configuration [d]. *)
Definition entityConfig (mor : ManagedObjectReference) : M VAppEntityConfigInfo :=
  let* v := Get resourceVSphereVAppEntitySchema "start_order" in
  let* start_order := as_int v in
  let* v := Get resourceVSphereVAppEntitySchema "start_action" in
  let* start_action := as_string v in
  let* v := Get resourceVSphereVAppEntitySchema "start_delay" in
  let* start_delay := as_int v in
  let* v := Get resourceVSphereVAppEntitySchema "stop_action" in
  let* stop_action := as_string v in
  let* v := Get resourceVSphereVAppEntitySchema "stop_delay" in
  let* stop_delay := as_int v in
  let* d := getData in
  ret {|
    Key := Some mor;
    StartOrder := int32 start_order;
    StartAction := start_action;
    StartDelay := int32 start_delay;
    StopAction := stop_action;
    StopDelay := int32 stop_delay;
    WaitingForGuest := GetBoolPtr env d "wait_for_guest";
    DestroyWithParent := None
  |}.

Definition resourceVSphereVAppEntityCreate : M unit :=
  exec resourceVSphereVAppContainerClient in
  let* v := Get resourceVSphereVAppEntitySchema "container_id" in
  let* id := as_string v in
  let* container := vappcontainer.FromID env id in
  let* mo := vappcontainer.Properties env container in
  let* v := Get resourceVSphereVAppEntitySchema "target_id" in
  let* uuid := as_string v in
  let* target := call (CVirtualMachineFromUUID uuid) (virtualmachine_FromUUID env uuid) in
  let* vmp := call (CVirtualMachineProperties target) (virtualmachine_Properties env target) in
  let id := Value (Reference container) +:+ ":" +:+ Value (Reference target) in
  exec SetId id in
  let mor := ManagedEntity_Reference vmp in
  let* entityConfig := entityConfig mor in
  let EntityConfig' := (EntityConfig (VAppConfig mo) ++ [entityConfig])%list in
  let updateSpec := {| spec_EntityConfig := EntityConfig' |} in
  vappcontainer.Update env container updateSpec.

Definition resourceVSphereVAppEntityFind : M (option VAppEntityConfigInfo) :=
  let* d := getData in
  let parts := SplitN colon (Id d) 2 in
  let* cid := index parts 0 in
  let* eid := index parts 1 in
  let* container := vappcontainer.FromID env cid in
  let* props := vappcontainer.Properties env container in
  lift (vappcontainer.EntityFromKey eid props).

Definition flattenVAppEntityConfigSpec (obj : VAppEntityConfigInfo) : M unit :=
  SetBatch env (list_to_map [
    ("start_action", VString (StartAction obj));
    ("start_delay", VInt32 (StartDelay obj));
    ("start_order", VInt32 (StartOrder obj));
    ("stop_action", VString (StopAction obj));
    ("stop_delay", VInt32 (StopDelay obj));
    ("wait_for_guest", VBoolPtr (WaitingForGuest obj))
  ]).

Definition resourceVSphereVAppEntityRead : M unit :=
  exec resourceVSphereVAppContainerClient in
  let* r := catch resourceVSphereVAppEntityFind in
  let* target_id := Get resourceVSphereVAppEntitySchema "target_id" in
  let* _ignored := catch (Set_ env "target_id" target_id) in
  match r with
  | inl err => fail err
  | inr None => SetId ""
  | inr (Some entity) => flattenVAppEntityConfigSpec entity
  end.

Definition resourceVSphereVAppEntityUpdate : M unit :=
  exec resourceVSphereVAppContainerClient in
  let* d := getData in
  let* va := vappcontainer.FromID env (Id d) in
  exec resourceVSphereVAppContainerApplyTags va in
  let* d := getData in
  let change := GetChange env d "parent_resource_pool_id" in
  exec (if bool_decide (change.1 <> change.2) then
          let* id := as_string change.2 in
          let* p := vappcontainer.FromID env id in
          call_ (CMoveIntoResourcePool p (Reference va))
                (resourcepool_MoveIntoResourcePool env p (Reference va))
        else ret tt) in
  vappcontainer.Update env va (mkVAppConfigSpec []).

(** The loop of [resourceVSphereVAppEntityDelete]: [el] collects the
    records whose key is not [vmo]. *)
Fixpoint resourceVSphereVAppEntityDelete_range (vmo : ManagedObjectReference)
    (el : list VAppEntityConfigInfo) (l : list VAppEntityConfigInfo)
  : result (list VAppEntityConfigInfo) :=
  match l with
  | [] => Ok el
  | e :: l' =>
      match Key e with
      | None => Panic NilDereference
      | Some k =>
          resourceVSphereVAppEntityDelete_range vmo
            (if bool_decide (k <> vmo) then (el ++ [e])%list else el) l'
      end
  end.

Definition resourceVSphereVAppEntityDelete : M unit :=
  exec resourceVSphereVAppContainerClient in
  let* v := Get resourceVSphereVAppEntitySchema "container_id" in
  let* id := as_string v in
  let* vc := vappcontainer.FromID env id in
  let* vcp := vappcontainer.Properties env vc in
  let* v := Get resourceVSphereVAppEntitySchema "target_id" in
  let* uuid := as_string v in
  let* vm := call (CVirtualMachineFromUUID uuid) (virtualmachine_FromUUID env uuid) in
  let* vmp := call (CVirtualMachineProperties vm) (virtualmachine_Properties env vm) in
  let vmo := ManagedEntity_Reference vmp in
  let* el := lift (resourceVSphereVAppEntityDelete_range vmo []
                     (EntityConfig (VAppConfig vcp))) in
  let updateSpec := {| spec_EntityConfig := el |} in
  vappcontainer.Update env vc updateSpec.

Definition vAppEntityChild (entity : string) : M (option ManagedObjectReference) :=
  ret (Some {| Type_ := ""; Value := "" |}).

Definition expandVAppEntityConfigSpec : M (option VAppEntityConfigInfo) :=
  let* v := Get resourceVSphereVAppEntitySchema "target_id" in
  let* id := as_string v in
  let* target := vAppEntityChild id in
  let* v := Get resourceVSphereVAppEntitySchema "start_action" in
  let* start_action := as_string v in
  let* v := Get resourceVSphereVAppEntitySchema "start_delay" in
  let* start_delay := as_int v in
  let* v := Get resourceVSphereVAppEntitySchema "stop_action" in
  let* stop_action := as_string v in
  let* v := Get resourceVSphereVAppEntitySchema "stop_delay" in
  let* stop_delay := as_int v in
  let* d := getData in
  ret (Some {|
    Key := target;
    StartOrder := 0;
    StartAction := start_action;
    StartDelay := int32 start_delay;
    StopAction := stop_action;
    StopDelay := int32 stop_delay;
    WaitingForGuest := GetBoolPtr env d "wait_for_guest";
    DestroyWithParent := None
  |}).

Definition resourceVSphereVAppEntityClient : M unit :=
  call_ CValidateVirtualCenter (ValidateVirtualCenter env).

Definition resourceVSphereVAppEntity : schema_Resource := {|
  Create := Some resourceVSphereVAppEntityCreate;
  Read := Some resourceVSphereVAppEntityRead;
  Update := Some resourceVSphereVAppEntityUpdate;
  Delete := Some resourceVSphereVAppEntityDelete;
  Importer := Some {| State := Some resourceVSphereVAppEntityImport |};
  Schema := resourceVSphereVAppEntitySchema
|}.

End Resources.

(** ** Failing calls *)

Definition error_of {A} (answer : error + A) : option error :=
  match answer with inl e => Some e | inr _ => None end.

(** The error, if any, with which the environment answers a call. *)
Definition failure (env : Env) (c : Call) : option error :=
  match c with
  | CValidateVirtualCenter => ValidateVirtualCenter env
  | CFinderVirtualApp dc name => error_of (finder_VirtualApp env dc name)
  | CFinderObjectReference ref => error_of (finder_ObjectReference env ref)
  | CProperties ref => error_of (VirtualApp_Properties env ref)
  | CCreateVApp va name rs vs f => error_of (ResourcePool_CreateVApp env va name rs vs f)
  | CUpdateConfig va spec => VirtualApp_UpdateConfig env va spec
  | CDestroy va => error_of (VirtualApp_Destroy env va)
  | CTaskWait task => Task_Wait env task
  | CResourcePoolFromID id => error_of (resourcepool_FromID env id)
  | CFolderFromID id => error_of (folder_FromID env id)
  | CGetDatacenter name => error_of (getDatacenter env name)
  | CFolderFromPath path dc => error_of (folder_FromPath env path dc)
  | CMoveIntoResourcePool rp ref => resourcepool_MoveIntoResourcePool env rp ref
  | CVirtualMachineFromUUID uuid => error_of (virtualmachine_FromUUID env uuid)
  | CVirtualMachineProperties vm => error_of (virtualmachine_Properties env vm)
  | CTagsClientIfDefined d => error_of (tagsClientIfDefined env d)
  | CTagsClient => None
  | CProcessTagDiff c d obj => processTagDiff env c d obj
  | CReadTagsForResource c obj d => error_of (readTagsForResource env c obj d)
  end.

(** ** Reference definitions for the statements *)

(** The value of an entity record's key, when it has one. *)
Definition has_key_value (k : string) (e : VAppEntityConfigInfo) : bool :=
  match Key e with
  | Some r => String.eqb (Value r) k
  | None => false
  end.

(** A record that carries a key whose value is not [k]. *)
Definition keyed_other (k : string) (e : VAppEntityConfigInfo) : Prop :=
  exists r, Key e = Some r /\ Value r <> k.

(** The first record of [l] whose key has the value [k]. *)
Definition first_with_key (k : string) (l : list VAppEntityConfigInfo)
  : option VAppEntityConfigInfo :=
  List.find (has_key_value k) l.

(** The records of [l] whose key is not the reference [vmo]. *)
Definition without_key (vmo : ManagedObjectReference) (l : list VAppEntityConfigInfo)
  : list VAppEntityConfigInfo :=
  List.filter (fun e => bool_decide (Key e <> Some vmo)) l.

(** Looking up the container [cid], then the member [eid] in it. *)
Definition lookup_member (env : Env) (cid eid : string) : M (option VAppEntityConfigInfo) :=
  let* container := vappcontainer.FromID env cid in
  let* props := vappcontainer.Properties env container in
  lift (vappcontainer.EntityFromKey eid props).

(** The flat attributes that mirror a [ResourceConfigSpec]. *)
Definition flat_config (obj : ResourceConfigSpec) : list (string * value) :=
  [ ("cpu_reservation", Reservation (CpuAllocation obj));
    ("cpu_expandable", ExpandableReservation (CpuAllocation obj));
    ("cpu_limit", Limit (CpuAllocation obj));
    ("cpu_shares", Shares_Shares (Shares (CpuAllocation obj)));
    ("cpu_share_level", Shares_Level (Shares (CpuAllocation obj)));
    ("memory_reservation", Reservation (MemoryAllocation obj));
    ("memory_expandable", ExpandableReservation (MemoryAllocation obj));
    ("memory_limit", Limit (MemoryAllocation obj));
    ("memory_shares", Shares_Shares (Shares (MemoryAllocation obj)));
    ("memory_share_level", Shares_Level (Shares (MemoryAllocation obj))) ].

(** The first value paired with [k] in a list of attributes. *)
Fixpoint assoc (k : string) (l : list (string * value)) : option value :=
  match l with
  | [] => None
  | (k', v) :: l' => if String.eqb k' k then Some v else assoc k l'
  end.

(** Typed views of the flat configuration. *)
Definition int_attr (d : ResourceData) (k : string) : Z :=
  match attrs d !! k with Some (VInt n) => n | _ => 0 end.

Definition string_attr (d : ResourceData) (k : string) : string :=
  match attrs d !! k with Some (VString s) => s | _ => "" end.

(** Storing one attribute. *)
Definition store (a : gmap string value) (kv : string * value) : gmap string value :=
  <[kv.1 := kv.2]> a.

(** ** Operations *)

(** Every function of the helper package and of the two resources that has
    a body to run, with its arguments.  (The [...IDString] helpers only
    format log lines.) *)
Inductive operation :=
| OpFromPath (name : string) (dc : option Datacenter)
| OpFromID (id : string)
| OpIsVApp (rp : string)
| OpEntityFromKey (key : string) (c : mo_VirtualApp)
| OpProperties (obj : VirtualApp)
| OpCreate (va : ResourcePool) (name : string) (resSpec : option ResourceConfigSpec)
    (vSpec : option VAppConfigSpec) (folder : option Folder)
| OpUpdate (va : VirtualApp) (spec : VAppConfigSpec)
| OpDelete (va : VirtualApp)
| OpHasChildren (va : VirtualApp)
| OpContainerImport
| OpContainerCreate
| OpContainerRead
| OpContainerUpdate
| OpContainerDelete
| OpContainerFlatten (obj : ResourceConfigSpec)
| OpContainerFlattenCPU (obj : ResourceAllocationInfo)
| OpContainerFlattenMemory (obj : ResourceAllocationInfo)
| OpContainerClient
| OpContainerValidateEmpty (va : VirtualApp)
| OpContainerApplyTags (va : VirtualApp)
| OpContainerReadTags (va : VirtualApp)
| OpEntityImport
| OpEntityCreate
| OpEntityRead
| OpEntityUpdate
| OpEntityDelete
| OpEntityFind
| OpEntityFlatten (obj : VAppEntityConfigInfo)
| OpEntityExpand
| OpEntityClient
| OpEntityChild (entity : string).

(** Running a computation for its effects only. *)
Definition void {A} (m : M A) : M unit := let* _ := m in ret tt.

Definition perform (env : Env) (op : operation) : M unit :=
  match op with
  | OpFromPath name dc => void (vappcontainer.FromPath env name dc)
  | OpFromID id => void (vappcontainer.FromID env id)
  | OpIsVApp rp => void (vappcontainer.IsVApp env rp)
  | OpEntityFromKey key c => void (lift (vappcontainer.EntityFromKey key c))
  | OpProperties obj => void (vappcontainer.Properties env obj)
  | OpCreate va name resSpec vSpec folder =>
      void (vappcontainer.Create env va name resSpec vSpec folder)
  | OpUpdate va spec => vappcontainer.Update env va spec
  | OpDelete va => vappcontainer.Delete env va
  | OpHasChildren va => void (vappcontainer.HasChildren env va)
  | OpContainerImport => void (resourceVSphereVAppContainerImport env)
  | OpContainerCreate => resourceVSphereVAppContainerCreate env
  | OpContainerRead => resourceVSphereVAppContainerRead env
  | OpContainerUpdate => resourceVSphereVAppContainerUpdate env
  | OpContainerDelete => resourceVSphereVAppContainerDelete env
  | OpContainerFlatten obj => flattenVAppContainerConfigSpec env obj
  | OpContainerFlattenCPU obj => flattenVAppContainerCPUAllocation env obj
  | OpContainerFlattenMemory obj => flattenVAppContainerMemoryAllocation env obj
  | OpContainerClient => resourceVSphereVAppContainerClient env
  | OpContainerValidateEmpty va => resourceVSphereVAppContainerValidateEmpty env va
  | OpContainerApplyTags va => resourceVSphereVAppContainerApplyTags env va
  | OpContainerReadTags va => resourceVSphereVAppContainerReadTags env va
  | OpEntityImport => void resourceVSphereVAppEntityImport
  | OpEntityCreate => resourceVSphereVAppEntityCreate env
  | OpEntityRead => resourceVSphereVAppEntityRead env
  | OpEntityUpdate => resourceVSphereVAppEntityUpdate env
  | OpEntityDelete => resourceVSphereVAppEntityDelete env
  | OpEntityFind => void (resourceVSphereVAppEntityFind env)
  | OpEntityFlatten obj => flattenVAppEntityConfigSpec env obj
  | OpEntityExpand => void (expandVAppEntityConfigSpec env)
  | OpEntityClient => resourceVSphereVAppEntityClient env
  | OpEntityChild entity => void (vAppEntityChild entity)
  end.

(** ** Following failures through a run *)

Definition erase {A} (r : result A) : result unit :=
  match r with
  | Ok _ => Ok tt
  | Err e => Err e
  | Panic p => Panic p
  end.

(** No call of [l] failed. *)
Definition clean (env : Env) (l : list Call) : Prop :=
  Forall (fun c => failure env c = None) l.

(** How an operation reports the failure [e] of call [c]: a relation to its
    own result and to the resource data it leaves. *)
Definition report : Type := Call -> error -> result unit -> ResourceData -> Prop.

(** The failure is returned as it is. *)
Definition unchanged : report := fun _ e r _ => r = Err e.

(** [m] stops at the first failing call and reports it as [Q] says: the
    calls of a run are all successful, except possibly the last one. *)
Definition tracks (env : Env) (Q : report) {A} (m : M A) : Prop :=
  forall st,
    exists new,
      trace (snd (m st)) = (trace st ++ new)%list /\
      (clean env new \/
       exists pre c e,
         new = (pre ++ [c])%list /\ clean env pre /\ failure env c = Some e /\
         Q c e (erase (fst (m st))) (rd (snd (m st)))).

(** A computation that makes no call. *)
Definition silent {A} (m : M A) : Prop :=
  forall st, trace (snd (m st)) = trace st.









(** ** A small inventory for examples *)

Module Demo.

Definition not_found : error := mkError "ManagedObjectNotFound".

Definition app : VirtualApp :=
  mkCommon (mkRef "VirtualApp" "resgroup-v1") "/dc1/host/cluster1/Resources/app".

Definition web : VirtualMachine :=
  mkCommon (mkRef "VirtualMachine" "vm-2") "/dc1/vm/web".

Definition db_ref : ManagedObjectReference := mkRef "VirtualMachine" "vm-3".

Definition member (key : option ManagedObjectReference) (order : Z) : VAppEntityConfigInfo :=
  mkEntity key order 0 None "powerOn" 0 "powerOff" None.

Definition allocation (n : Z) : ResourceAllocationInfo :=
  mkAllocation (VInt n) (VBool true) (VInt (-1)) (mkShares (VInt32 4000) (VString "normal")).

(** The properties of [app] with members [l] and virtual machines [vms]. *)
Definition props (l : list VAppEntityConfigInfo) (vms : list ManagedObjectReference)
  : mo_VirtualApp :=
  mkMoVirtualApp (mkRef "ResourcePool" "resgroup-8")
    (mkResourceConfigSpec (allocation 100) (allocation 256))
    vms [] (VOpaque "customValue") (mkVAppConfigInfo l).

(** A vCenter that knows the container [app], with properties [p], and the
    virtual machine [web]; every other lookup fails. *)
Definition world (p : error + mo_VirtualApp) : Env := {|
  finder_VirtualApp dc name :=
    if decide (name = InventoryPath app) then inr app else inl not_found;
  finder_ObjectReference ref :=
    if decide (ref = Reference app) then inr (mkObject KVirtualApp app)
    else inl not_found;
  VirtualApp_Properties ref :=
    if decide (ref = Reference app) then p else inl not_found;
  ResourcePool_CreateVApp va name rs vs f := inr app;
  VirtualApp_UpdateConfig va spec := None;
  VirtualApp_Destroy va := inr (mkTask (mkRef "Task" "task-1"));
  Task_Wait task := None;
  Name c := "app";
  ValidateVirtualCenter := None;
  IsManagedObjectNotFoundError e := bool_decide (e = not_found);
  resourcepool_FromID id :=
    inr (mkCommon (mkRef "ResourcePool" id) "/dc1/host/cluster1/Resources");
  resourcepool_MoveIntoResourcePool rp ref := None;
  folder_FromID id := inr (mkCommon (mkRef "Folder" id) "/dc1/vm");
  folder_FromPath path dc := inr (mkCommon (mkRef "Folder" "group-v3") "/dc1/vm");
  getDatacenter name := inr (mkCommon (mkRef "Datacenter" "datacenter-2") name);
  virtualmachine_FromUUID uuid :=
    if decide (uuid = "4207-web") then inr web else inl not_found;
  virtualmachine_Properties vm := inr (mkMoVirtualMachine (Reference vm));
  expandResourcePoolConfigSpec d :=
    Some (mkResourceConfigSpec (allocation 0) (allocation 0));
  GetBoolPtr d k :=
    match attrs d !! k with Some (VBool b) => Some b | _ => None end;
  tagsClientIfDefined d := inr None;
  meta_TagsClient := None;
  processTagDiff c d obj := None;
  readTagsForResource c obj d := inr d;
  vSphereTagAttributeKey := "tags";
  tagsSchema := mkSchema TypeSet false true false false None;
  customattribute_ConfigKey := "custom_attributes";
  customattribute_ConfigSchema := mkSchema TypeMap false true false false None;
  Set_error k v := None;
  GetChange d k := (VNil, VNil);
  Quote s := s
|}.

(** The configuration of a [vsphere_vapp_entity] for [web] in [app]. *)
Definition entity_data (id : string) : ResourceData :=
  mkResourceData id (list_to_map [
    ("container_id", VString "resgroup-v1");
    ("target_id", VString "4207-web");
    ("start_order", VInt 2);
    ("start_action", VString "powerOn");
    ("start_delay", VInt 30);
    ("stop_action", VString "guestShutdown");
    ("stop_delay", VInt 60);
    ("wait_for_guest", VBool true)
  ]).

(** The state of a [vsphere_vapp_container] with ID [id]. *)
Definition container_data (id : string) : ResourceData :=
  mkResourceData id (list_to_map [
    ("name", VString "app");
    ("parent_resource_pool_id", VString "resgroup-8")
  ]).

(** Properties in which the first member has no key. *)
Definition keyless : mo_VirtualApp :=
  props [member None 1; member (Some (Reference web)) 2] [].

(** Properties with two keyed members followed by one without a key. *)
Definition three_members : mo_VirtualApp :=
  props [member (Some db_ref) 1; member (Some (Reference web)) 2; member None 3] [].

End Demo.

(** ** Kinds of calls and of operations *)

(** The calls that change something in vSphere. *)
Definition mutating (c : Call) : bool :=
  match c with
  | CCreateVApp _ _ _ _ _ | CUpdateConfig _ _ | CDestroy _
  | CMoveIntoResourcePool _ _ | CProcessTagDiff _ _ _ => true
  | _ => false
  end.

(** Every call of [m] satisfies [P]. *)
Definition only (P : Call -> bool) {A} (m : M A) : Prop :=
  forall st,
    exists new,
      trace (snd (m st)) = (trace st ++ new)%list /\
      Forall (fun c => P c = true) new.

(** [m] leaves the resource data as it found it. *)
Definition keeps {A} (m : M A) : Prop :=
  forall st, rd (snd (m st)) = rd st.

(** The operations that look things up: the helper's finders and readers,
    the Read and Import handlers and what they call. *)
Definition is_reader (op : operation) : bool :=
  match op with
  | OpFromPath _ _ | OpFromID _ | OpIsVApp _ | OpEntityFromKey _ _
  | OpProperties _ | OpHasChildren _
  | OpContainerImport | OpContainerRead
  | OpContainerFlatten _ | OpContainerFlattenCPU _ | OpContainerFlattenMemory _
  | OpContainerClient | OpContainerValidateEmpty _ | OpContainerReadTags _
  | OpEntityImport | OpEntityRead | OpEntityFind | OpEntityFlatten _
  | OpEntityExpand | OpEntityClient | OpEntityChild _ => true
  | _ => false
  end.

(** The handlers that begin with [resourceVSphereVAppContainerClient]. *)
Definition is_guarded (op : operation) : bool :=
  match op with
  | OpContainerImport | OpContainerCreate | OpContainerRead
  | OpContainerUpdate | OpContainerDelete
  | OpEntityCreate | OpEntityRead | OpEntityUpdate | OpEntityDelete => true
  | _ => false
  end.

(** The operations that never write to the resource data and do not hand
    them to a helper outside these files either. *)
Definition is_data_frame (op : operation) : bool :=
  match op with
  | OpFromPath _ _ | OpFromID _ | OpIsVApp _ | OpEntityFromKey _ _
  | OpProperties _ | OpCreate _ _ _ _ _ | OpUpdate _ _ | OpDelete _
  | OpHasChildren _
  | OpContainerDelete | OpContainerClient | OpContainerValidateEmpty _
  | OpEntityImport | OpEntityDelete | OpEntityFind
  | OpEntityClient | OpEntityChild _ => true
  | _ => false
  end.

(** The calls an Update handler may make: lookups, the tag step, a move
    into another pool, and an update that carries an empty spec. *)
Definition sends_no_settings (c : Call) : bool :=
  match c with
  | CUpdateConfig _ spec => bool_decide (spec = mkVAppConfigSpec [])
  | CCreateVApp _ _ _ _ _ | CDestroy _ | CTaskWait _ => false
  | _ => true
  end.

(** The flat attributes that mirror an entity record. *)
Definition flat_entity (obj : VAppEntityConfigInfo) : list (string * value) :=
  [ ("start_action", VString (StartAction obj));
    ("start_delay", VInt32 (StartDelay obj));
    ("start_order", VInt32 (StartOrder obj));
    ("stop_action", VString (StopAction obj));
    ("stop_delay", VInt32 (StopDelay obj));
    ("wait_for_guest", VBoolPtr (WaitingForGuest obj)) ].

(** The part of [s] in front of its first [sep], or all of [s]. *)
Fixpoint before (sep : ascii) (s : string) : string :=
  match s with
  | EmptyString => EmptyString
  | String c s' => if Ascii.eqb c sep then EmptyString else String c (before sep s')
  end.

(** The state in which Read finds the resource data after Find: the
    attribute [target_id] is written back to itself, unless the SDK refuses
    the value. *)
Definition after_target_id (env : Env) (d : ResourceData) : ResourceData :=
  match Set_error env "target_id" (VString (string_attr d "target_id")) with
  | Some _ => d
  | None =>
      mkResourceData (Id d)
        (<["target_id" := VString (string_attr d "target_id")]> (attrs d))
  end.

(** ** The earlier revision of [resourceVSphereVAppEntityCreate] *)

(** The second of the three revisions in [resource_vsphere_vapp_entity.go]:
    its schema has no [start_order], and its Create handler neither looks up
    the target nor sets the resource ID. *)
Module Revision2.

Section WithEnv.

Context (env : Env).

Definition resourceVSphereVAppEntitySchema : gmap string schema_Schema :=
  list_to_map [
    ("target_id", mkSchema TypeString true false false false None);
    ("container_id", mkSchema TypeString true false false false None);
    ("start_action",
      mkSchema TypeString false true false false (Some (VString "powerOn")));
    ("start_delay", mkSchema TypeInt false true false false None);
    ("stop_action",
      mkSchema TypeString false true false false (Some (VString "powerOff")));
    ("stop_delay", mkSchema TypeInt false true false false None);
    ("wait_for_guest", mkSchema TypeBool false true false false (Some (VBool false)));
    (vSphereTagAttributeKey env, tagsSchema env);
    (customattribute_ConfigKey env, customattribute_ConfigSchema env)
  ].

(** The struct literal of the handler; Go evaluates the field expressions in
    the order they are written. *)
Definition entityConfig : M VAppEntityConfigInfo :=
  let* v := Get resourceVSphereVAppEntitySchema "start_action" in
  let* start_action := as_string v in
  let* v := Get resourceVSphereVAppEntitySchema "start_delay" in
  let* start_delay := as_int v in
  let* v := Get resourceVSphereVAppEntitySchema "start_action" in
  let* stop_action := as_string v in
  let* v := Get resourceVSphereVAppEntitySchema "start_delay" in
  let* stop_delay := as_int v in
  let* v := Get resourceVSphereVAppEntitySchema "start_order" in
  let* start_order := as_int v in
  let* d := getData in
  ret {|
    Key := None;
    StartOrder := int32 start_order;
    StartAction := start_action;
    StartDelay := int32 start_delay;
    StopAction := stop_action;
    StopDelay := int32 stop_delay;
    WaitingForGuest := GetBoolPtr env d "wait_for_guest";
    DestroyWithParent := None
  |}.

Definition resourceVSphereVAppEntityCreate : M unit :=
  exec resourceVSphereVAppContainerClient env in
  let* v := Get resourceVSphereVAppEntitySchema "container_id" in
  let* id := as_string v in
  let* container := vappcontainer.FromID env id in
  let* mo := vappcontainer.Properties env container in
  let* entityConfig := entityConfig in
  let EntityConfig' := (EntityConfig (VAppConfig mo) ++ [entityConfig])%list in
  let updateSpec := {| spec_EntityConfig := EntityConfig' |} in
  vappcontainer.Update env container updateSpec.

End WithEnv.

End Revision2.

(** ** Further inventories for examples *)

Module Scenario.

(** [env] with another answer of [viapi.ValidateVirtualCenter]. *)
Definition with_validation (v : option error) (env : Env) : Env := {|
  finder_VirtualApp := finder_VirtualApp env;
  finder_ObjectReference := finder_ObjectReference env;
  VirtualApp_Properties := VirtualApp_Properties env;
  ResourcePool_CreateVApp := ResourcePool_CreateVApp env;
  VirtualApp_UpdateConfig := VirtualApp_UpdateConfig env;
  VirtualApp_Destroy := VirtualApp_Destroy env;
  Task_Wait := Task_Wait env;
  Name := Name env;
  ValidateVirtualCenter := v;
  IsManagedObjectNotFoundError := IsManagedObjectNotFoundError env;
  resourcepool_FromID := resourcepool_FromID env;
  resourcepool_MoveIntoResourcePool := resourcepool_MoveIntoResourcePool env;
  folder_FromID := folder_FromID env;
  folder_FromPath := folder_FromPath env;
  getDatacenter := getDatacenter env;
  virtualmachine_FromUUID := virtualmachine_FromUUID env;
  virtualmachine_Properties := virtualmachine_Properties env;
  expandResourcePoolConfigSpec := expandResourcePoolConfigSpec env;
  GetBoolPtr := GetBoolPtr env;
  tagsClientIfDefined := tagsClientIfDefined env;
  meta_TagsClient := meta_TagsClient env;
  processTagDiff := processTagDiff env;
  readTagsForResource := readTagsForResource env;
  vSphereTagAttributeKey := vSphereTagAttributeKey env;
  tagsSchema := tagsSchema env;
  customattribute_ConfigKey := customattribute_ConfigKey env;
  customattribute_ConfigSchema := customattribute_ConfigSchema env;
  Set_error := Set_error env;
  GetChange := GetChange env;
  Quote := Quote env
|}.

Definition not_vcenter : error := mkError "unsupported on direct ESXi connections".

(** A host that is not managed by a vCenter. *)
Definition esxi : Env := with_validation (Some not_vcenter) (Demo.world (inl Demo.not_found)).

(** The container [Demo.app] without members and without children. *)
Definition empty_app : Env := Demo.world (inr (Demo.props [] [])).

(** The container with [Demo.web] and the other machine as members. *)
Definition two_members : list VAppEntityConfigInfo :=
  [Demo.member (Some Demo.db_ref) 1; Demo.member (Some (Reference Demo.web)) 2].

Definition populated_app : Env := Demo.world (inr (Demo.props two_members [])).

(** [env] with another answer of [tagsClientIfDefined]. *)
Definition with_tags (t : ResourceData -> error + option TagsClient) (env : Env) : Env := {|
  finder_VirtualApp := finder_VirtualApp env;
  finder_ObjectReference := finder_ObjectReference env;
  VirtualApp_Properties := VirtualApp_Properties env;
  ResourcePool_CreateVApp := ResourcePool_CreateVApp env;
  VirtualApp_UpdateConfig := VirtualApp_UpdateConfig env;
  VirtualApp_Destroy := VirtualApp_Destroy env;
  Task_Wait := Task_Wait env;
  Name := Name env;
  ValidateVirtualCenter := ValidateVirtualCenter env;
  IsManagedObjectNotFoundError := IsManagedObjectNotFoundError env;
  resourcepool_FromID := resourcepool_FromID env;
  resourcepool_MoveIntoResourcePool := resourcepool_MoveIntoResourcePool env;
  folder_FromID := folder_FromID env;
  folder_FromPath := folder_FromPath env;
  getDatacenter := getDatacenter env;
  virtualmachine_FromUUID := virtualmachine_FromUUID env;
  virtualmachine_Properties := virtualmachine_Properties env;
  expandResourcePoolConfigSpec := expandResourcePoolConfigSpec env;
  GetBoolPtr := GetBoolPtr env;
  tagsClientIfDefined := t;
  meta_TagsClient := meta_TagsClient env;
  processTagDiff := processTagDiff env;
  readTagsForResource := readTagsForResource env;
  vSphereTagAttributeKey := vSphereTagAttributeKey env;
  tagsSchema := tagsSchema env;
  customattribute_ConfigKey := customattribute_ConfigKey env;
  customattribute_ConfigSchema := customattribute_ConfigSchema env;
  Set_error := Set_error env;
  GetChange := GetChange env;
  Quote := Quote env
|}.

Definition no_tags : error := mkError "tagging requires vCenter 6.0 or higher".

(** A vCenter on which the tag step fails. *)
Definition tagless : Env := with_tags (fun _ => inl no_tags) empty_app.

(** The configuration of a container that names its folder. *)
Definition container_in_folder : ResourceData :=
  mkResourceData "" (list_to_map [
    ("name", VString "app");
    ("parent_resource_pool_id", VString "resgroup-8");
    ("parent_folder", VString "group-v5")
  ]).

End Scenario.

(** * Properties *)

(** ** Evaluating handlers *)

Ltac unfold_monad :=
  unfold outcome, calls, data in *; unfold run in *;
  unfold call, call_, record, catch, lift, deref,
    index, as_string, as_int, as_VirtualApp, Get, GetOk, SetId, getData,
    putData, fail, raise, bind, ret in *.

(** ** [FromID] *)

(** C7. [FromID] resolves the object through the finder, with one lookup of
    the reference whose type is "VirtualApp" and whose value is the given
    ID; it returns the located VirtualApp when the finder succeeds and the
    finder's error when it fails. *)
Theorem FromID_resolves_reference (env : Env) (id : string) (d : ResourceData) :
  let ref := {| Type_ := "VirtualApp"; Value := id |} in
  calls (vappcontainer.FromID env id) d = [CFinderObjectReference ref] /\
  (forall va : VirtualApp,
      finder_ObjectReference env ref = inr (mkObject KVirtualApp va) ->
      outcome (vappcontainer.FromID env id) d = Ok va) /\
  (forall e : error,
      finder_ObjectReference env ref = inl e ->
      outcome (vappcontainer.FromID env id) d = Err e).
Proof.
  intros ref. unfold vappcontainer.FromID. fold ref. unfold_monad.
  split; [| split].
  - cbn. destruct (finder_ObjectReference env ref) as [e | obj]; cbn.
    + reflexivity.
    + destruct (kind obj); reflexivity.
  - intros va H. cbn. rewrite H. reflexivity.
  - intros e H. cbn. rewrite H. reflexivity.
Qed.

Lemma FromID_resolves_reference_witness :
  outcome (vappcontainer.FromID (Demo.world (inl Demo.not_found)) "resgroup-v1")
          (Demo.container_data "resgroup-v1") = Ok Demo.app /\
  outcome (vappcontainer.FromID (Demo.world (inl Demo.not_found)) "resgroup-v9")
          (Demo.container_data "resgroup-v1") = Err Demo.not_found.
Proof.
  split.
  - apply (proj1 (proj2 (FromID_resolves_reference
             (Demo.world (inl Demo.not_found)) "resgroup-v1"
             (Demo.container_data "resgroup-v1")))).
    reflexivity.
  - apply (proj2 (proj2 (FromID_resolves_reference
             (Demo.world (inl Demo.not_found)) "resgroup-v9"
             (Demo.container_data "resgroup-v1")))).
    reflexivity.
Defined.

(** ** [EntityFromKey] *)

Lemma EntityFromKey_range_skip (k : string) (pre l : list VAppEntityConfigInfo) :
  Forall (keyed_other k) pre ->
  vappcontainer.EntityFromKey_range k (pre ++ l)%list =
  vappcontainer.EntityFromKey_range k l.
Proof.
  induction 1 as [| e pre [r [Hkey Hne]] _ IH]; [reflexivity |].
  cbn. rewrite Hkey.
  destruct (String.eqb_spec (Value r) k) as [Heq | _]; [contradiction | exact IH].
Qed.

Lemma EntityFromKey_range_no_index_panic (k : string) (l : list VAppEntityConfigInfo) :
  vappcontainer.EntityFromKey_range k l <> Panic IndexOutOfRange.
Proof.
  induction l as [| e l IH]; cbn; [discriminate |].
  destruct (Key e) as [r |]; [| discriminate].
  destruct (String.eqb (Value r) k); [discriminate | exact IH].
Qed.

(** With a key on every record, the scan is [List.find]. *)
Lemma EntityFromKey_range_find (k : string) (l : list VAppEntityConfigInfo) :
  Forall (fun e => Key e <> None) l ->
  vappcontainer.EntityFromKey_range k l = Ok (first_with_key k l).
Proof.
  unfold first_with_key.
  induction 1 as [| e l Hkey _ IH]; [reflexivity |].
  cbn. unfold has_key_value at 1.
  destruct (Key e) as [r |]; [| contradiction].
  destruct (String.eqb (Value r) k); [reflexivity | exact IH].
Qed.

(** C2, as the code has it.  [EntityFromKey] scans
    [c.VAppConfig.EntityConfig] once, front to back.  When the records in
    front of the first one with key value [k] all carry a key, it returns
    that record and looks no further; when every record carries a key and
    none has the value [k], it returns nil; and when the scan reaches a
    record without a key it panics on the nil dereference. *)
Theorem EntityFromKey_first_match (k : string) (c : mo_VirtualApp) :
  (forall pre e post r,
      EntityConfig (VAppConfig c) = (pre ++ e :: post)%list ->
      Forall (keyed_other k) pre ->
      Key e = Some r -> Value r = k ->
      vappcontainer.EntityFromKey k c = Ok (Some e)) /\
  (Forall (keyed_other k) (EntityConfig (VAppConfig c)) ->
      vappcontainer.EntityFromKey k c = Ok None) /\
  (forall pre e post,
      EntityConfig (VAppConfig c) = (pre ++ e :: post)%list ->
      Forall (keyed_other k) pre ->
      Key e = None ->
      vappcontainer.EntityFromKey k c = Panic NilDereference).
Proof.
  unfold vappcontainer.EntityFromKey. split; [| split].
  - intros pre e post r -> Hpre Hkey Hval.
    rewrite EntityFromKey_range_skip by exact Hpre.
    cbn. rewrite Hkey, Hval, String.eqb_refl. reflexivity.
  - intros Hall.
    rewrite <- (app_nil_r (EntityConfig (VAppConfig c))).
    rewrite EntityFromKey_range_skip by exact Hall. reflexivity.
  - intros pre e post -> Hpre Hkey.
    rewrite EntityFromKey_range_skip by exact Hpre.
    cbn. rewrite Hkey. reflexivity.
Qed.

Lemma EntityFromKey_first_match_witness :
  vappcontainer.EntityFromKey "vm-2" Demo.three_members
  = Ok (Some (Demo.member (Some (Reference Demo.web)) 2)).
Proof.
  apply (proj1 (EntityFromKey_first_match "vm-2" Demo.three_members)
           [Demo.member (Some Demo.db_ref) 1]
           (Demo.member (Some (Reference Demo.web)) 2)
           [Demo.member None 3]
           (Reference Demo.web)).
  - reflexivity.
  - constructor; [| constructor].
    exists Demo.db_ref. split; [reflexivity | discriminate].
  - reflexivity.
  - reflexivity.
Defined.

(** C2, as stated, fails: in [Demo.keyless] the first record with key value
    "vm-2" is the second one, yet the scan never returns it, because the
    record in front of it has a nil [Key]. *)
Lemma EntityFromKey_keyless_counterexample :
  first_with_key "vm-2" (EntityConfig (VAppConfig Demo.keyless))
  = Some (Demo.member (Some (Reference Demo.web)) 2) /\
  vappcontainer.EntityFromKey "vm-2" Demo.keyless = Panic NilDereference.
Proof. split; reflexivity. Qed.

(** ** [resourceVSphereVAppEntityFind] *)

Lemma SplitN_no_separator (sep : ascii) (s : string) :
  contains sep s = false -> SplitN sep s 2 = [s].
Proof.
  induction s as [| c s IH]; [reflexivity |].
  cbn [contains SplitN]. intros H.
  apply orb_false_iff in H as [Hc Hs].
  rewrite Hc, (IH Hs). reflexivity.
Qed.

Lemma SplitN_first_separator (sep : ascii) (a b : string) :
  contains sep a = false ->
  SplitN sep (a +:+ String sep b) 2 = [a; b].
Proof.
  induction a as [| c a IH]; intros H.
  - change (EmptyString +:+ String sep b) with (String sep b).
    cbn [SplitN]. rewrite Ascii.eqb_refl. destruct b; reflexivity.
  - cbn [contains] in H. apply orb_false_iff in H as [Hc Hs].
    change (String c a +:+ String sep b) with (String c (a +:+ String sep b)).
    cbn [SplitN]. rewrite Hc, (IH Hs). reflexivity.
Qed.

Lemma contains_split (sep : ascii) (s : string) :
  contains sep s = true ->
  exists a b, s = a +:+ String sep b /\ contains sep a = false.
Proof.
  induction s as [| c s IH]; [discriminate |].
  cbn [contains]. destruct (Ascii.eqb_spec c sep) as [-> | Hne]; cbn [orb].
  - intros _. exists EmptyString, s. split; reflexivity.
  - intros H. destruct (IH H) as (a & b & -> & Ha).
    exists (String c a), b. split; [reflexivity |].
    cbn [contains]. rewrite Ha.
    destruct (Ascii.eqb_spec c sep); [contradiction | reflexivity].
Qed.

Lemma lookup_member_no_index_panic (env : Env) (cid eid : string) (d : ResourceData) :
  outcome (lookup_member env cid eid) d <> Panic IndexOutOfRange.
Proof.
  unfold lookup_member, vappcontainer.FromID, vappcontainer.Properties,
    vappcontainer.EntityFromKey.
  unfold_monad. cbn.
  destruct (finder_ObjectReference env _) as [e | obj]; cbn; [discriminate |].
  destruct (kind obj); cbn; try discriminate.
  destruct (VirtualApp_Properties env _) as [e | props]; cbn; [discriminate |].
  apply EntityFromKey_range_no_index_panic.
Qed.

Lemma resourceVSphereVAppEntityFind_parts (env : Env) (st : St) :
  resourceVSphereVAppEntityFind env st =
  (let* cid := index (SplitN colon (Id (rd st)) 2) 0 in
   let* eid := index (SplitN colon (Id (rd st)) 2) 1 in
   let* container := vappcontainer.FromID env cid in
   let* props := vappcontainer.Properties env container in
   lift (vappcontainer.EntityFromKey eid props)) st.
Proof. reflexivity. Qed.

(** C8. [resourceVSphereVAppEntityFind] needs a ':' in the resource ID.
    An ID that has one is split at the first ':'; the container is looked up
    by the part in front of it and the member by the part behind it.  An ID
    without ':' makes the access to the second part of the split panic with
    an index out of range, before any lookup; and that panic occurs for no
    other ID. *)
Theorem resourceVSphereVAppEntityFind_separator (env : Env) (d : ResourceData) :
  (contains colon (Id d) = true ->
     exists cid eid,
       Id d = cid +:+ ":" +:+ eid /\
       contains colon cid = false /\
       run (resourceVSphereVAppEntityFind env) d = run (lookup_member env cid eid) d) /\
  (contains colon (Id d) = false ->
     outcome (resourceVSphereVAppEntityFind env) d = Panic IndexOutOfRange /\
     calls (resourceVSphereVAppEntityFind env) d = []) /\
  (outcome (resourceVSphereVAppEntityFind env) d = Panic IndexOutOfRange ->
     contains colon (Id d) = false).
Proof.
  assert (Hsplit : contains colon (Id d) = true ->
     exists cid eid,
       Id d = cid +:+ ":" +:+ eid /\
       contains colon cid = false /\
       run (resourceVSphereVAppEntityFind env) d = run (lookup_member env cid eid) d).
  { intros H. destruct (contains_split _ _ H) as (cid & eid & Hid & Hcid).
    exists cid, eid. split; [exact Hid |]. split; [exact Hcid |].
    unfold run. rewrite resourceVSphereVAppEntityFind_parts. cbn [rd].
    rewrite Hid, (SplitN_first_separator _ _ _ Hcid).
    reflexivity. }
  split; [exact Hsplit |]. split.
  - intros H.
    unfold outcome, calls, run. rewrite resourceVSphereVAppEntityFind_parts.
    cbn [rd]. rewrite (SplitN_no_separator _ _ H). split; reflexivity.
  - intros Hpanic. destruct (contains colon (Id d)) eqn:Hc; [| reflexivity].
    exfalso. destruct (Hsplit eq_refl) as (cid & eid & _ & _ & Hrun).
    unfold outcome in Hpanic. rewrite Hrun in Hpanic.
    exact (lookup_member_no_index_panic env cid eid d Hpanic).
Qed.

Lemma resourceVSphereVAppEntityFind_separator_witness :
  outcome (resourceVSphereVAppEntityFind (Demo.world (inr Demo.three_members)))
          (Demo.entity_data "resgroup-v1") = Panic IndexOutOfRange /\
  calls (resourceVSphereVAppEntityFind (Demo.world (inr Demo.three_members)))
        (Demo.entity_data "resgroup-v1") = [].
Proof.
  apply (proj1 (proj2 (resourceVSphereVAppEntityFind_separator
           (Demo.world (inr Demo.three_members)) (Demo.entity_data "resgroup-v1")))).
  reflexivity.
Defined.

(** ** Reading the flat configuration *)

Lemma get_value_string (s : gmap string schema_Schema) (d : ResourceData) (k : string)
    (sch : schema_Schema) :
  s !! k = Some sch -> sType sch = TypeString ->
  get_value s d k = VString (string_attr d k).
Proof.
  intros Hs Ht. unfold get_value, string_attr. rewrite Hs, Ht.
  destruct (attrs d !! k) as [[] |]; reflexivity.
Qed.

Lemma get_value_int (s : gmap string schema_Schema) (d : ResourceData) (k : string)
    (sch : schema_Schema) :
  s !! k = Some sch -> sType sch = TypeInt ->
  get_value s d k = VInt (int_attr d k).
Proof.
  intros Hs Ht. unfold get_value, int_attr. rewrite Hs, Ht.
  destruct (attrs d !! k) as [[] |]; reflexivity.
Qed.

Ltac lookup_schema :=
  repeat (rewrite list_to_map_cons; cbn [fst snd];
          first [ rewrite lookup_insert_eq; reflexivity
                | rewrite lookup_insert_ne by discriminate ]).

Lemma entity_string_key (env : Env) (d : ResourceData) (k : string) :
  k ∈ ["target_id"; "container_id"; "start_action"; "stop_action"] ->
  get_value (resourceVSphereVAppEntitySchema env) d k = VString (string_attr d k).
Proof.
  intros Hk. repeat (apply elem_of_cons in Hk as [-> | Hk]);
    [ .. | apply elem_of_nil in Hk; contradiction ];
    (eapply get_value_string;
     [ unfold resourceVSphereVAppEntitySchema; lookup_schema | reflexivity ]).
Qed.

Lemma entity_int_key (env : Env) (d : ResourceData) (k : string) :
  k ∈ ["start_delay"; "stop_delay"; "start_order"] ->
  get_value (resourceVSphereVAppEntitySchema env) d k = VInt (int_attr d k).
Proof.
  intros Hk. repeat (apply elem_of_cons in Hk as [-> | Hk]);
    [ .. | apply elem_of_nil in Hk; contradiction ];
    (eapply get_value_int;
     [ unfold resourceVSphereVAppEntitySchema; lookup_schema | reflexivity ]).
Qed.

#[local] Arguments get_value : simpl never.
#[local] Arguments resourceVSphereVAppEntitySchema : simpl never.
#[local] Arguments resourceVSphereVAppContainerSchema : simpl never.

Ltac entity_keys :=
  repeat first
    [ rewrite entity_string_key by (repeat first [ apply list_elem_of_here | apply list_elem_of_further ])
    | rewrite entity_int_key by (repeat first [ apply list_elem_of_here | apply list_elem_of_further ]) ].

(** ** [vsphere_vapp_entity]: Create *)

(** C1. Once the container and the target virtual machine are found, the
    Create handler builds the member's record from the flat configuration
    field by field (the three integers through [int32]), appends it to the
    container's existing [EntityConfig] list, and sends that list as the
    update spec; the handler's result is the result of that update. *)
Theorem resourceVSphereVAppEntityCreate_update_spec
    (env : Env) (d : ResourceData)
    (container : VirtualApp) (mo : mo_VirtualApp)
    (target : VirtualMachine) (vmp : mo_VirtualMachine) :
  ValidateVirtualCenter env = None ->
  finder_ObjectReference env (mkRef "VirtualApp" (string_attr d "container_id"))
    = inr (mkObject KVirtualApp container) ->
  VirtualApp_Properties env (Reference container) = inr mo ->
  virtualmachine_FromUUID env (string_attr d "target_id") = inr target ->
  virtualmachine_Properties env target = inr vmp ->
  let d' := mkResourceData
              (Value (Reference container) +:+ ":" +:+ Value (Reference target))
              (attrs d) in
  let member := {|
    Key := Some (ManagedEntity_Reference vmp);
    StartOrder := int32 (int_attr d "start_order");
    StartAction := string_attr d "start_action";
    StartDelay := int32 (int_attr d "start_delay");
    StopAction := string_attr d "stop_action";
    StopDelay := int32 (int_attr d "stop_delay");
    WaitingForGuest := GetBoolPtr env d' "wait_for_guest";
    DestroyWithParent := None |} in
  let updateSpec := {|
    spec_EntityConfig := (EntityConfig (VAppConfig mo) ++ [member])%list |} in
  calls (resourceVSphereVAppEntityCreate env) d =
    [ CValidateVirtualCenter;
      CFinderObjectReference (mkRef "VirtualApp" (string_attr d "container_id"));
      CProperties (Reference container);
      CVirtualMachineFromUUID (string_attr d "target_id");
      CVirtualMachineProperties target;
      CUpdateConfig container updateSpec ] /\
  outcome (resourceVSphereVAppEntityCreate env) d =
    match VirtualApp_UpdateConfig env container updateSpec with
    | Some e => Err e
    | None => Ok tt
    end.
Proof.
  intros Hvc Hfind Hprops Huuid Hvm d' member updateSpec.
  unfold resourceVSphereVAppEntityCreate, resourceVSphereVAppContainerClient,
    vappcontainer.FromID, vappcontainer.Properties, vappcontainer.Update,
    entityConfig.
  unfold_monad. cbn. rewrite Hvc. cbn. entity_keys. cbn.
  rewrite Hfind. cbn. rewrite Hprops. cbn. entity_keys. cbn.
  rewrite Huuid. cbn. rewrite Hvm. cbn. entity_keys. cbn.
  match goal with
  | |- context [VirtualApp_UpdateConfig env container ?s] =>
      change s with updateSpec
  end.
  destruct (VirtualApp_UpdateConfig env container updateSpec); split; reflexivity.
Qed.

Lemma resourceVSphereVAppEntityCreate_update_spec_witness :
  calls (resourceVSphereVAppEntityCreate (Demo.world (inr (Demo.props [] []))))
        (Demo.entity_data "") =
    [ CValidateVirtualCenter;
      CFinderObjectReference (mkRef "VirtualApp" "resgroup-v1");
      CProperties (Reference Demo.app);
      CVirtualMachineFromUUID "4207-web";
      CVirtualMachineProperties Demo.web;
      CUpdateConfig Demo.app
        (mkVAppConfigSpec
           [mkEntity (Some (Reference Demo.web)) 2 30 (Some true)
              "powerOn" 60 "guestShutdown" None]) ] /\
  outcome (resourceVSphereVAppEntityCreate (Demo.world (inr (Demo.props [] []))))
          (Demo.entity_data "") = Ok tt.
Proof.
  exact (resourceVSphereVAppEntityCreate_update_spec
           (Demo.world (inr (Demo.props [] []))) (Demo.entity_data "")
           Demo.app (Demo.props [] []) Demo.web
           (mkMoVirtualMachine (Reference Demo.web))
           eq_refl eq_refl eq_refl eq_refl eq_refl).
Defined.

(** [int32] keeps a number that fits and wraps one that does not. *)
Lemma int32_in_range (x : Z) : - 2 ^ 31 <= x < 2 ^ 31 -> int32 x = x.
Proof.
  intros H. unfold int32. rewrite Z.mod_small by lia. lia.
Qed.

Lemma int32_wraps : int32 (2 ^ 32 + 7) = 7.
Proof. reflexivity. Qed.

(** ** [vsphere_vapp_entity]: Delete *)

Lemma resourceVSphereVAppEntityDelete_range_filter
    (vmo : ManagedObjectReference) (l el : list VAppEntityConfigInfo) :
  Forall (fun e => Key e <> None) l ->
  resourceVSphereVAppEntityDelete_range vmo el l = Ok (el ++ without_key vmo l)%list.
Proof.
  intros H. revert el. induction H as [| e l Hkey _ IH]; intros el; cbn.
  - rewrite app_nil_r. reflexivity.
  - destruct (Key e) as [k |] eqn:Hk; [| contradiction].
    rewrite IH. unfold without_key. cbn. try rewrite Hk.
    destruct (decide (k = vmo)) as [-> | Hne].
    + rewrite !bool_decide_eq_false_2 by (intros Hc; apply Hc; reflexivity).
      reflexivity.
    + rewrite !bool_decide_eq_true_2 by congruence.
      rewrite <- app_assoc. reflexivity.
Qed.

Lemma resourceVSphereVAppEntityDelete_range_keyless
    (vmo : ManagedObjectReference) (l el : list VAppEntityConfigInfo) :
  Exists (fun e => Key e = None) l ->
  resourceVSphereVAppEntityDelete_range vmo el l = Panic NilDereference.
Proof.
  intros H. revert el. induction H as [e l Hkey | e l _ IH]; intros el; cbn.
  - rewrite Hkey. reflexivity.
  - destruct (Key e); [apply IH | reflexivity].
Qed.

Lemma without_key_spec (vmo : ManagedObjectReference)
    (l : list VAppEntityConfigInfo) (e : VAppEntityConfigInfo) :
  In e (without_key vmo l) <-> In e l /\ Key e <> Some vmo.
Proof.
  unfold without_key. rewrite filter_In, bool_decide_eq_true. reflexivity.
Qed.

Lemma without_key_sublist (vmo : ManagedObjectReference) (l : list VAppEntityConfigInfo) :
  sublist (without_key vmo l) l.
Proof.
  unfold without_key. induction l as [| e l IH]; cbn; [constructor |].
  destruct (bool_decide _); [apply sublist_skip | apply sublist_cons]; exact IH.
Qed.

(** C5, as the code has it.  When every existing entity record of the
    container carries a key, the Delete handler sends an update spec whose
    [EntityConfig] list holds exactly the existing records whose key is not
    the target virtual machine's reference, unchanged and in their original
    order; only the records with that key are left out. *)
Theorem resourceVSphereVAppEntityDelete_update_spec
    (env : Env) (d : ResourceData)
    (vc : VirtualApp) (vcp : mo_VirtualApp)
    (vm : VirtualMachine) (vmp : mo_VirtualMachine) :
  ValidateVirtualCenter env = None ->
  finder_ObjectReference env (mkRef "VirtualApp" (string_attr d "container_id"))
    = inr (mkObject KVirtualApp vc) ->
  VirtualApp_Properties env (Reference vc) = inr vcp ->
  virtualmachine_FromUUID env (string_attr d "target_id") = inr vm ->
  virtualmachine_Properties env vm = inr vmp ->
  Forall (fun e => Key e <> None) (EntityConfig (VAppConfig vcp)) ->
  let vmo := ManagedEntity_Reference vmp in
  let el := without_key vmo (EntityConfig (VAppConfig vcp)) in
  let updateSpec := {| spec_EntityConfig := el |} in
  calls (resourceVSphereVAppEntityDelete env) d =
    [ CValidateVirtualCenter;
      CFinderObjectReference (mkRef "VirtualApp" (string_attr d "container_id"));
      CProperties (Reference vc);
      CVirtualMachineFromUUID (string_attr d "target_id");
      CVirtualMachineProperties vm;
      CUpdateConfig vc updateSpec ] /\
  outcome (resourceVSphereVAppEntityDelete env) d =
    match VirtualApp_UpdateConfig env vc updateSpec with
    | Some e => Err e
    | None => Ok tt
    end /\
  (forall e, In e el <-> In e (EntityConfig (VAppConfig vcp)) /\ Key e <> Some vmo) /\
  sublist el (EntityConfig (VAppConfig vcp)).
Proof.
  intros Hvc Hfind Hprops Huuid Hvm Hkeys vmo el updateSpec.
  assert (Hrun :
    run (resourceVSphereVAppEntityDelete env) d =
    run (exec record CValidateVirtualCenter in
         exec record (CFinderObjectReference
                        (mkRef "VirtualApp" (string_attr d "container_id"))) in
         exec record (CProperties (Reference vc)) in
         exec record (CVirtualMachineFromUUID (string_attr d "target_id")) in
         exec record (CVirtualMachineProperties vm) in
         vappcontainer.Update env vc updateSpec) d).
  { unfold resourceVSphereVAppEntityDelete, resourceVSphereVAppContainerClient,
      vappcontainer.FromID, vappcontainer.Properties, vappcontainer.Update.
    unfold_monad. cbn. rewrite Hvc. cbn. entity_keys. cbn.
    rewrite Hfind. cbn. rewrite Hprops. cbn. entity_keys. cbn.
    rewrite Huuid. cbn. rewrite Hvm. cbn.
    rewrite (resourceVSphereVAppEntityDelete_range_filter _ _ [] Hkeys).
    reflexivity. }
  unfold calls, outcome. rewrite Hrun.
  unfold vappcontainer.Update. unfold_monad. cbn.
  split; [| split; [| split]].
  - destruct (VirtualApp_UpdateConfig env vc updateSpec); reflexivity.
  - destruct (VirtualApp_UpdateConfig env vc updateSpec); reflexivity.
  - intros e. apply without_key_spec.
  - apply without_key_sublist.
Qed.

Lemma resourceVSphereVAppEntityDelete_update_spec_witness :
  calls (resourceVSphereVAppEntityDelete
           (Demo.world (inr (Demo.props
              [Demo.member (Some Demo.db_ref) 1;
               Demo.member (Some (Reference Demo.web)) 2;
               Demo.member (Some Demo.db_ref) 3] []))))
        (Demo.entity_data "resgroup-v1:vm-2") =
    [ CValidateVirtualCenter;
      CFinderObjectReference (mkRef "VirtualApp" "resgroup-v1");
      CProperties (Reference Demo.app);
      CVirtualMachineFromUUID "4207-web";
      CVirtualMachineProperties Demo.web;
      CUpdateConfig Demo.app
        (mkVAppConfigSpec
           [Demo.member (Some Demo.db_ref) 1; Demo.member (Some Demo.db_ref) 3]) ].
Proof.
  refine (proj1 (resourceVSphereVAppEntityDelete_update_spec
           (Demo.world (inr (Demo.props
              [Demo.member (Some Demo.db_ref) 1;
               Demo.member (Some (Reference Demo.web)) 2;
               Demo.member (Some Demo.db_ref) 3] [])))
           (Demo.entity_data "resgroup-v1:vm-2")
           Demo.app _ Demo.web (mkMoVirtualMachine (Reference Demo.web))
           eq_refl eq_refl eq_refl eq_refl eq_refl _)).
  repeat constructor; discriminate.
Defined.

(** C5, as stated, fails: in [Demo.keyless] the first record has a nil
    [Key].  Every lookup of the handler succeeds, yet it panics while
    comparing keys and sends no update spec at all. *)
Lemma resourceVSphereVAppEntityDelete_keyless_counterexample :
  outcome (resourceVSphereVAppEntityDelete (Demo.world (inr Demo.keyless)))
          (Demo.entity_data "resgroup-v1:vm-2") = Panic NilDereference /\
  calls (resourceVSphereVAppEntityDelete (Demo.world (inr Demo.keyless)))
        (Demo.entity_data "resgroup-v1:vm-2") =
    [ CValidateVirtualCenter;
      CFinderObjectReference (mkRef "VirtualApp" "resgroup-v1");
      CProperties (Reference Demo.app);
      CVirtualMachineFromUUID "4207-web";
      CVirtualMachineProperties Demo.web ] /\
  without_key (Reference Demo.web) (EntityConfig (VAppConfig Demo.keyless))
    = [Demo.member None 1].
Proof. repeat split; vm_compute; reflexivity. Qed.

(** ** [vsphere_vapp_container]: Delete *)

Lemma HasChildren_empty (env : Env) (va : VirtualApp) (props : mo_VirtualApp)
    (d : ResourceData) :
  VirtualApp_Properties env (Reference va) = inr props ->
  Vm props = [] -> ResourcePool_ResourcePool props = [] ->
  outcome (vappcontainer.HasChildren env va) d = Ok false.
Proof.
  intros Hp Hvm Hrp. unfold vappcontainer.HasChildren, vappcontainer.Properties.
  unfold_monad. cbn. rewrite Hp. cbn. rewrite Hvm, Hrp. reflexivity.
Qed.

(** C4. For a container that has at least one virtual machine or at least
    one child resource pool, the Delete handler returns an error and never
    issues the destroy call; and whenever the destroy call is issued,
    [HasChildren] reports false for the container it destroys. *)
Theorem resourceVSphereVAppContainerDelete_guard (env : Env) (d : ResourceData) :
  (forall (va : VirtualApp) (props : mo_VirtualApp),
      finder_ObjectReference env (mkRef "VirtualApp" (Id d))
        = inr (mkObject KVirtualApp va) ->
      VirtualApp_Properties env (Reference va) = inr props ->
      (0 < length (Vm props))%nat \/ (0 < length (ResourcePool_ResourcePool props))%nat ->
      (exists e, outcome (resourceVSphereVAppContainerDelete env) d = Err e) /\
      (forall va', ~ In (CDestroy va') (calls (resourceVSphereVAppContainerDelete env) d))) /\
  (forall (va : VirtualApp),
      In (CDestroy va) (calls (resourceVSphereVAppContainerDelete env) d) ->
      forall d', outcome (vappcontainer.HasChildren env va) d' = Ok false).
Proof.
  split.
  - intros va props Hfind Hprops Hchildren.
    unfold resourceVSphereVAppContainerDelete, resourceVSphereVAppContainerClient,
      resourceVSphereVAppContainerValidateEmpty, vappcontainer.FromID,
      vappcontainer.HasChildren, vappcontainer.Properties, vappcontainer.Delete.
    unfold_monad. cbn.
    destruct (ValidateVirtualCenter env) as [e |]; cbn.
    { split; [eauto |]. intros va' [H | []]; discriminate. }
    rewrite Hfind. cbn. rewrite Hprops. cbn.
    assert (Hb : bool_decide (0 < length (Vm props))%nat
                 || bool_decide (0 < length (ResourcePool_ResourcePool props))%nat = true).
    { apply orb_true_iff.
      destruct Hchildren as [H | H]; [left | right]; apply bool_decide_eq_true_2, H. }
    rewrite Hb. cbn. split; [eauto |].
    intros va' H. repeat (destruct H as [H | H]; [discriminate |]). exact H.
  - intros va Hin d'.
    unfold resourceVSphereVAppContainerDelete, resourceVSphereVAppContainerClient,
      resourceVSphereVAppContainerValidateEmpty, vappcontainer.FromID,
      vappcontainer.HasChildren, vappcontainer.Properties, vappcontainer.Delete in Hin.
    unfold_monad. cbn in Hin.
    destruct (ValidateVirtualCenter env) as [e |]; cbn in Hin.
    { repeat (destruct Hin as [Hin | Hin]; [discriminate |]). contradiction. }
    destruct (finder_ObjectReference env _) as [e | obj]; cbn in Hin.
    { repeat (destruct Hin as [Hin | Hin]; [discriminate |]). contradiction. }
    destruct obj as [k va0]; cbn in Hin.
    destruct k; cbn in Hin;
      try (repeat (destruct Hin as [Hin | Hin]; [discriminate |]); contradiction).
    destruct (VirtualApp_Properties env (Reference va0)) as [e | props] eqn:Hprops;
      cbn in Hin.
    { repeat (destruct Hin as [Hin | Hin]; [discriminate |]). contradiction. }
    destruct (Vm props) as [| v vs] eqn:Hvm; cbn in Hin;
      [| repeat (destruct Hin as [Hin | Hin]; [discriminate |]); contradiction ].
    destruct (ResourcePool_ResourcePool props) as [| p ps] eqn:Hrp; cbn in Hin;
      [| repeat (destruct Hin as [Hin | Hin]; [discriminate |]); contradiction ].
    assert (Hva : va = va0).
    { destruct (VirtualApp_Destroy env va0) as [e | task]; cbn in Hin.
      - repeat (destruct Hin as [Hin | Hin]; [congruence |]). contradiction.
      - destruct (Task_Wait env task); cbn in Hin;
          repeat (destruct Hin as [Hin | Hin]; [congruence |]); contradiction. }
    subst va0.
    exact (HasChildren_empty env va props d' Hprops Hvm Hrp).
Qed.

Lemma resourceVSphereVAppContainerDelete_guard_witness :
  (exists e,
      outcome (resourceVSphereVAppContainerDelete
                 (Demo.world (inr (Demo.props [] [Reference Demo.web]))))
              (Demo.container_data "resgroup-v1") = Err e) /\
  (forall va',
      ~ In (CDestroy va')
           (calls (resourceVSphereVAppContainerDelete
                     (Demo.world (inr (Demo.props [] [Reference Demo.web]))))
                  (Demo.container_data "resgroup-v1"))).
Proof.
  apply (proj1 (resourceVSphereVAppContainerDelete_guard
                  (Demo.world (inr (Demo.props [] [Reference Demo.web])))
                  (Demo.container_data "resgroup-v1"))
           Demo.app (Demo.props [] [Reference Demo.web])).
  - reflexivity.
  - reflexivity.
  - left. cbn. lia.
Defined.

(** ** [structure.SetBatch] and the flattening of a [ResourceConfigSpec] *)


Lemma SetBatch_list_inv (env : Env) (l : list (string * value)) (st st' : St) :
  SetBatch_list env l st = (Ok tt, st') ->
  st' = mkSt (mkResourceData (Id (rd st)) (foldl store (attrs (rd st)) l)) (trace st).
Proof.
  revert st. induction l as [| [k v] l IH]; intros st; cbn [SetBatch_list foldl].
  - unfold ret. intros [= <-]. destruct st as [[id a] t]. reflexivity.
  - unfold bind, Set_. destruct (Set_error env k v) as [e |]; [discriminate |].
    unfold_monad. cbn. intros H. rewrite (IH _ H). reflexivity.
Qed.

Lemma SetBatch_list_ok (env : Env) (l : list (string * value)) (st : St) :
  Forall (fun kv => Set_error env kv.1 kv.2 = None) l ->
  SetBatch_list env l st
  = (Ok tt, mkSt (mkResourceData (Id (rd st)) (foldl store (attrs (rd st)) l)) (trace st)).
Proof.
  intros H. revert st. induction H as [| [k v] l Hkv _ IH]; intros st;
    cbn [SetBatch_list foldl].
  - destruct st as [[id a] t]. reflexivity.
  - unfold bind, Set_. cbn in Hkv. rewrite Hkv. unfold_monad. cbn.
    rewrite IH. reflexivity.
Qed.

(** Storing the entries of a map one by one, in any order without repeated
    keys, yields the union with the map. *)
Lemma foldl_store_union (l : list (string * value)) (a : gmap string value) :
  NoDup l.*1 -> foldl store a l = list_to_map l ∪ a.
Proof.
  revert a. induction l as [| [k v] l IH]; intros a Hnd; cbn [foldl].
  - cbn. rewrite (left_id_L ∅ (∪)). reflexivity.
  - cbn in Hnd. apply NoDup_cons in Hnd as [Hk Hnd].
    rewrite (IH _ Hnd). unfold store. cbn.
    rewrite <- insert_union_l. symmetry.
    apply insert_union_r, not_elem_of_list_to_map_1, Hk.
Qed.

Lemma SetBatch_inv (env : Env) (m : gmap string value) (st st' : St) :
  SetBatch env m st = (Ok tt, st') ->
  st' = mkSt (mkResourceData (Id (rd st)) (m ∪ attrs (rd st))) (trace st).
Proof.
  unfold SetBatch. intros H. rewrite (SetBatch_list_inv _ _ _ _ H).
  rewrite foldl_store_union by apply NoDup_fst_map_to_list.
  rewrite list_to_map_to_list. reflexivity.
Qed.

Lemma SetBatch_ok (env : Env) (m : gmap string value) (st : St) :
  (forall k v, m !! k = Some v -> Set_error env k v = None) ->
  SetBatch env m st
  = (Ok tt, mkSt (mkResourceData (Id (rd st)) (m ∪ attrs (rd st))) (trace st)).
Proof.
  intros H. unfold SetBatch. rewrite SetBatch_list_ok.
  - rewrite foldl_store_union by apply NoDup_fst_map_to_list.
    rewrite list_to_map_to_list. reflexivity.
  - apply Forall_forall. intros [k v] Hin. cbn.
    apply H, elem_of_map_to_list, Hin.
Qed.

Lemma list_to_map_assoc (l : list (string * value)) (k : string) :
  (list_to_map l : gmap string value) !! k = assoc k l.
Proof.
  induction l as [| [k' v] l IH]; [apply lookup_empty |].
  rewrite list_to_map_cons. cbn [assoc].
  destruct (String.eqb_spec k' k) as [-> | Hne].
  - apply lookup_insert_eq.
  - rewrite lookup_insert_ne by exact Hne. exact IH.
Qed.

Lemma assoc_None (l : list (string * value)) (k : string) :
  ~ In k (map fst l) -> assoc k l = None.
Proof.
  induction l as [| [k' v] l IH]; [reflexivity |].
  cbn. intros H. destruct (String.eqb_spec k' k) as [-> | _].
  - exfalso. apply H. left. reflexivity.
  - apply IH. intros Hin. apply H. right. exact Hin.
Qed.

#[local] Arguments flattenVAppContainerConfigSpec : simpl never.

(** What a successful flattening leaves in the resource data. *)
Lemma flattenVAppContainerConfigSpec_inv (env : Env) (obj : ResourceConfigSpec) (st st' : St) :
  flattenVAppContainerConfigSpec env obj st = (Ok tt, st') ->
  Id (rd st') = Id (rd st) /\ trace st' = trace st /\
  (forall k v, In (k, v) (flat_config obj) -> attrs (rd st') !! k = Some v) /\
  (forall k, ~ In k (map fst (flat_config obj)) -> attrs (rd st') !! k = attrs (rd st) !! k).
Proof.
  unfold flattenVAppContainerConfigSpec, flattenVAppContainerMemoryAllocation,
    flattenVAppContainerCPUAllocation, bind.
  destruct (SetBatch env _ st) as [[[] | e | p] st1] eqn:Hmem;
    [| intros H; inversion H ..].
  intros Hcpu.
  apply SetBatch_inv in Hmem. apply SetBatch_inv in Hcpu. subst st1 st'.
  cbn [rd trace Id attrs].
  split; [reflexivity |]. split; [reflexivity |]. split.
  - intros k v Hin. unfold flat_config in Hin.
    repeat (destruct Hin as [[= <- <-] | Hin]); [ .. | contradiction ].
    all: rewrite !lookup_union, !list_to_map_assoc; cbn [assoc String.eqb Ascii.eqb Bool.eqb].
    all: first [ apply union_Some_l
               | rewrite (left_id_L None (∪)); apply union_Some_l ].
  - intros k Hk. rewrite !lookup_union, !list_to_map_assoc.
    rewrite !assoc_None.
    + rewrite !(left_id_L None (∪)). reflexivity.
    + intros Hin. apply Hk. cbn in Hin |- *. tauto.
    + intros Hin. apply Hk. cbn in Hin |- *. tauto.
Qed.

Lemma assoc_Some_In (l : list (string * value)) (k : string) (v : value) :
  assoc k l = Some v -> In (k, v) l.
Proof.
  induction l as [| [k' v'] l IH]; [discriminate |].
  cbn. destruct (String.eqb_spec k' k) as [-> | _].
  - intros [= ->]. left. reflexivity.
  - intros H. right. exact (IH H).
Qed.

Lemma flattenVAppContainerConfigSpec_ok (env : Env) (obj : ResourceConfigSpec) (st : St) :
  Forall (fun kv => Set_error env kv.1 kv.2 = None) (flat_config obj) ->
  fst (flattenVAppContainerConfigSpec env obj st) = Ok tt.
Proof.
  intros H. rewrite Forall_forall in H.
  unfold flattenVAppContainerConfigSpec, flattenVAppContainerMemoryAllocation,
    flattenVAppContainerCPUAllocation, bind.
  rewrite SetBatch_ok.
  - rewrite SetBatch_ok; [reflexivity |].
    intros k v Hkv. rewrite list_to_map_assoc in Hkv.
    apply assoc_Some_In in Hkv. apply (H (k, v)), list_elem_of_In.
    unfold flat_config. cbn in Hkv |- *. tauto.
  - intros k v Hkv. rewrite list_to_map_assoc in Hkv.
    apply assoc_Some_In in Hkv. apply (H (k, v)), list_elem_of_In.
    unfold flat_config. cbn in Hkv |- *. tauto.
Qed.

(** C6. Flattening a [ResourceConfigSpec] stores, key by key, the CPU and
    memory allocation fields under the [cpu_*] and [memory_*] attributes
    listed in [flat_config], contacts nothing and leaves the other
    attributes alone; it succeeds whenever the SDK accepts the ten values.
    The Read handler leaves these ten attributes, taken from the [Config]
    of the container's properties, in the resource data whenever it returns
    nil for a container that was found. *)
Theorem flattenVAppContainerConfigSpec_fields
    (env : Env) (obj : ResourceConfigSpec) (d : ResourceData) :
  (Forall (fun kv => Set_error env kv.1 kv.2 = None) (flat_config obj) ->
     outcome (flattenVAppContainerConfigSpec env obj) d = Ok tt) /\
  (outcome (flattenVAppContainerConfigSpec env obj) d = Ok tt ->
     calls (flattenVAppContainerConfigSpec env obj) d = [] /\
     Id (data (flattenVAppContainerConfigSpec env obj) d) = Id d /\
     (forall k v, In (k, v) (flat_config obj) ->
        attrs (data (flattenVAppContainerConfigSpec env obj) d) !! k = Some v) /\
     (forall k, ~ In k (map fst (flat_config obj)) ->
        attrs (data (flattenVAppContainerConfigSpec env obj) d) !! k = attrs d !! k)) /\
  (forall (va : VirtualApp) (vaProps : mo_VirtualApp),
     finder_ObjectReference env (mkRef "VirtualApp" (Id d))
       = inr (mkObject KVirtualApp va) ->
     VirtualApp_Properties env (Reference va) = inr vaProps ->
     outcome (resourceVSphereVAppContainerRead env) d = Ok tt ->
     forall k v, In (k, v) (flat_config (Config vaProps)) ->
       attrs (data (resourceVSphereVAppContainerRead env) d) !! k = Some v).
Proof.
  split; [| split].
  - intros H. unfold outcome, run. apply flattenVAppContainerConfigSpec_ok, H.
  - unfold outcome, calls, data, run.
    destruct (flattenVAppContainerConfigSpec env obj (mkSt d [])) as [r st'] eqn:Hrun.
    cbn [fst snd]. intros ->.
    destruct (flattenVAppContainerConfigSpec_inv _ _ _ _ Hrun) as (Hid & Htr & Hin & Hout).
    repeat split; assumption.
  - intros va vaProps Hfind Hprops.
    unfold resourceVSphereVAppContainerRead, resourceVSphereVAppContainerClient,
      resourceVSphereVAppContainerReadTags, vappcontainer.FromID,
      vappcontainer.Properties, Set_.
    unfold_monad. cbn.
    destruct (ValidateVirtualCenter env); cbn; [discriminate |].
    rewrite Hfind. cbn.
    destruct (meta_TagsClient env) as [c |]; cbn.
    + destruct (readTagsForResource env c va d) as [e | d1]; cbn; [discriminate |].
      destruct (Set_error env "name" _); cbn; [discriminate |].
      rewrite Hprops. cbn.
      destruct (Set_error env "parent_resource_pool_id" _); cbn; [discriminate |].
      destruct (Set_error env "resource_pool_id" _); cbn; [discriminate |].
      match goal with
      | |- context [flattenVAppContainerConfigSpec env ?o ?s] =>
          destruct (flattenVAppContainerConfigSpec env o s) as [r st'] eqn:Hrun
      end.
      cbn [fst snd]. intros ->.
      destruct (flattenVAppContainerConfigSpec_inv _ _ _ _ Hrun) as (_ & _ & Hin & _).
      exact Hin.
    + destruct (Set_error env "name" _); cbn; [discriminate |].
      rewrite Hprops. cbn.
      destruct (Set_error env "parent_resource_pool_id" _); cbn; [discriminate |].
      destruct (Set_error env "resource_pool_id" _); cbn; [discriminate |].
      match goal with
      | |- context [flattenVAppContainerConfigSpec env ?o ?s] =>
          destruct (flattenVAppContainerConfigSpec env o s) as [r st'] eqn:Hrun
      end.
      cbn [fst snd]. intros ->.
      destruct (flattenVAppContainerConfigSpec_inv _ _ _ _ Hrun) as (_ & _ & Hin & _).
      exact Hin.
Qed.

Lemma flattenVAppContainerConfigSpec_fields_witness :
  attrs (data (flattenVAppContainerConfigSpec (Demo.world (inr (Demo.props [] [])))
                 (Config (Demo.props [] [])))
              (Demo.container_data "resgroup-v1")) !! "cpu_shares"
    = Some (VInt32 4000) /\
  attrs (data (resourceVSphereVAppContainerRead (Demo.world (inr (Demo.props [] []))))
              (Demo.container_data "resgroup-v1")) !! "memory_reservation"
    = Some (VInt 256).
Proof.
  split.
  - apply (proj1 (proj2 (flattenVAppContainerConfigSpec_fields
              (Demo.world (inr (Demo.props [] []))) (Config (Demo.props [] []))
              (Demo.container_data "resgroup-v1")))).
    + vm_compute. reflexivity.
    + cbn. tauto.
  - apply (proj2 (proj2 (flattenVAppContainerConfigSpec_fields
              (Demo.world (inr (Demo.props [] []))) (Config (Demo.props [] []))
              (Demo.container_data "resgroup-v1")))
            Demo.app (Demo.props [] [])).
    + reflexivity.
    + reflexivity.
    + vm_compute. reflexivity.
    + cbn. tauto.
Defined.

(** ** Failures of outside calls *)

Section Tracking.

Context (env : Env).

Lemma clean_app (l1 l2 : list Call) :
  clean env l1 -> clean env l2 -> clean env (l1 ++ l2)%list.
Proof. unfold clean. intros H1 H2. apply Forall_app. split; assumption. Qed.


Lemma silent_ret {A} (a : A) : silent (ret a).
Proof. intros st. reflexivity. Qed.

Lemma silent_fail {A} (e : error) : silent (@fail A e).
Proof. intros st. reflexivity. Qed.

Lemma silent_raise {A} (p : panic) : silent (@raise A p).
Proof. intros st. reflexivity. Qed.

Lemma silent_lift {A} (r : result A) : silent (lift r).
Proof. intros st. reflexivity. Qed.

Lemma silent_getData : silent getData.
Proof. intros st. reflexivity. Qed.

Lemma silent_putData (d : ResourceData) : silent (putData d).
Proof. intros st. reflexivity. Qed.

Lemma silent_bind {A B} (m : M A) (k : A -> M B) :
  silent m -> (forall a, silent (k a)) -> silent (bind m k).
Proof.
  intros Hm Hk st. unfold bind. specialize (Hm st).
  destruct (m st) as [[a | e | p] st1]; cbn in Hm |- *;
    [rewrite Hk |..]; exact Hm.
Qed.

Lemma silent_catch {A} (m : M A) : silent m -> silent (catch m).
Proof.
  intros Hm st. unfold catch. specialize (Hm st).
  destruct (m st) as [[a | e | p] st1]; exact Hm.
Qed.

Lemma tracks_weaken (Q : report) {A} (m : M A) :
  (forall c e d, Q c e (Err e) d) -> tracks env unchanged m -> tracks env Q m.
Proof.
  intros HQ Hm st. destruct (Hm st) as (new & Htr & [Hc | (pre & c & e & Hn & Hp & Hf & Hr)]).
  - exists new. split; [exact Htr | left; exact Hc].
  - exists new. split; [exact Htr |]. right. exists pre, c, e.
    repeat split; try assumption. unfold unchanged in Hr. rewrite Hr. apply HQ.
Qed.





(** A caught failure that the handler [k] answers without a further call. *)
Lemma tracks_catch (Q : report) {A B} (m : M A) (k : error + A -> M B) :
  tracks env unchanged m ->
  (forall a, tracks env Q (k (inr a))) ->
  (forall e, silent (k (inl e))) ->
  (forall c e st, failure env c = Some e ->
     Q c e (erase (fst (k (inl e) st))) (rd (snd (k (inl e) st)))) ->
  tracks env Q (bind (catch m) k).
Proof.
  intros Hm Hk Hs HQ st. unfold bind, catch.
  destruct (Hm st) as (new1 & Htr1 & H1).
  destruct (m st) as [r st1] eqn:Hrun. cbn [fst snd] in *.
  destruct H1 as [Hc1 | (pre & c & e & Hn & Hp & Hf & Hr)].
  - destruct r as [a | e | p].
    + destruct (Hk a st1) as (new2 & Htr2 & H2).
      exists (new1 ++ new2)%list. rewrite Htr2, Htr1, app_assoc.
      split; [reflexivity |].
      destruct H2 as [Hc2 | (pre & c & e & Hn & Hp & Hf & Hr)].
      * left. apply clean_app; assumption.
      * right. exists (new1 ++ pre)%list, c, e. rewrite Hn, app_assoc.
        repeat split; try assumption. apply clean_app; assumption.
    + exists new1. rewrite Hs. split; [exact Htr1 | left; exact Hc1].
    + exists new1. split; [exact Htr1 | left; exact Hc1].
  - unfold unchanged in Hr. destruct r as [a | e' | p]; try discriminate.
    injection Hr as ->. exists new1. rewrite Hs. split; [exact Htr1 |].
    right. exists pre, c, e. repeat split; try assumption. apply HQ, Hf.
Qed.






Lemma silent_SetBatch_list (l : list (string * value)) : silent (SetBatch_list env l).
Proof.
  induction l as [| [k v] l IH]; cbn [SetBatch_list]; [apply silent_ret |].
  apply silent_bind; [| intros _; exact IH].
  unfold Set_. destruct (Set_error env k v); [apply silent_fail |].
  apply silent_bind; [apply silent_getData | intros d; apply silent_putData].
Qed.

Lemma silent_SetBatch (m : gmap string value) : silent (SetBatch env m).
Proof. apply silent_SetBatch_list. Qed.

End Tracking.

Ltac silent_step :=
  first
    [ simple apply silent_SetBatch
    | simple apply silent_ret | simple apply silent_fail | simple apply silent_raise
    | simple apply silent_lift | simple apply silent_getData
    | simple apply silent_putData | simple apply silent_catch
    | simple apply silent_bind; [| intros ?]
    | match goal with
      | |- silent (match ?x with _ => _ end) => destruct x
      end ].

Ltac silence :=
  unfold flattenVAppContainerConfigSpec, flattenVAppContainerCPUAllocation,
    flattenVAppContainerMemoryAllocation, flattenVAppEntityConfigSpec,
    expandVAppEntityConfigSpec, vAppEntityChild, resourceVSphereVAppEntityImport,
    void, Set_, SetId, Get, GetOk, deref, index, as_string, as_int, as_VirtualApp;
  repeat silent_step.


Section Operations.

Context (env : Env).


























End Operations.




(** A failure that is not handed on as it is: when the properties call
    fails, [resourceVSphereVAppContainerValidateEmpty] does not return that
    error but a new one built around its message. *)
Lemma ValidateEmpty_wraps_counterexample :
  calls (resourceVSphereVAppContainerValidateEmpty
           (Demo.world (inl Demo.not_found)) Demo.app)
        (Demo.container_data "resgroup-v1") = [CProperties (Reference Demo.app)] /\
  failure (Demo.world (inl Demo.not_found)) (CProperties (Reference Demo.app))
    = Some Demo.not_found /\
  outcome (resourceVSphereVAppContainerValidateEmpty
             (Demo.world (inl Demo.not_found)) Demo.app)
          (Demo.container_data "resgroup-v1")
    = Err (mkError "error checking contents of resource pool: ManagedObjectNotFound") /\
  outcome (resourceVSphereVAppContainerValidateEmpty
             (Demo.world (inl Demo.not_found)) Demo.app)
          (Demo.container_data "resgroup-v1")
    <> Err Demo.not_found.
Proof.
  repeat split; try reflexivity. vm_compute. discriminate.
Qed.

(** Two more runs that do not hand the failure on: the container's Read
    after the container is gone, and [IsVApp]. *)
Lemma Read_recovers_example :
  calls (resourceVSphereVAppContainerRead (Demo.world (inl Demo.not_found)))
        (Demo.container_data "resgroup-v9")
    = [CValidateVirtualCenter;
       CFinderObjectReference (mkRef "VirtualApp" "resgroup-v9")] /\
  outcome (resourceVSphereVAppContainerRead (Demo.world (inl Demo.not_found)))
          (Demo.container_data "resgroup-v9") = Ok tt /\
  Id (data (resourceVSphereVAppContainerRead (Demo.world (inl Demo.not_found)))
           (Demo.container_data "resgroup-v9")) = "".
Proof. repeat split; reflexivity. Qed.

Lemma IsVApp_swallows_example :
  outcome (vappcontainer.IsVApp (Demo.world (inl Demo.not_found)) "resgroup-v9")
          (Demo.container_data "resgroup-v9") = Ok false.
Proof. reflexivity. Qed.

(** ** What operations call and what they leave alone *)

Section Calls.

Context (env : Env) (P : Call -> bool).

Lemma only_silent {A} (m : M A) : silent m -> only P m.
Proof.
  intros H st. exists []. rewrite app_nil_r. split; [apply H | constructor].
Qed.

Lemma only_bind {A B} (m : M A) (k : A -> M B) :
  only P m -> (forall a, only P (k a)) -> only P (bind m k).
Proof.
  intros Hm Hk st. unfold bind.
  destruct (Hm st) as (new1 & Htr1 & H1).
  destruct (m st) as [[a | e | p] st1]; cbn [fst snd] in *.
  - destruct (Hk a st1) as (new2 & Htr2 & H2).
    exists (new1 ++ new2)%list. rewrite Htr2, Htr1, app_assoc.
    split; [reflexivity | apply Forall_app; split; assumption].
  - exists new1. split; assumption.
  - exists new1. split; assumption.
Qed.

Lemma only_catch {A} (m : M A) : only P m -> only P (catch m).
Proof.
  intros Hm st. unfold catch. destruct (Hm st) as (new & Htr & H).
  exists new. destruct (m st) as [[a | e | p] st1]; split; assumption.
Qed.

Lemma only_record (c : Call) : P c = true -> only P (record c).
Proof.
  intros H st. exists [c]. split; [reflexivity | repeat constructor; exact H].
Qed.

Lemma only_call {A} (c : Call) (answer : error + A) : P c = true -> only P (call c answer).
Proof.
  intros H. unfold call. apply only_bind; [apply only_record, H |].
  intros _. apply only_silent. destruct answer; [apply silent_fail | apply silent_ret].
Qed.

Lemma only_call_ (c : Call) (answer : option error) : P c = true -> only P (call_ c answer).
Proof.
  intros H. unfold call_. apply only_bind; [apply only_record, H |].
  intros _. apply only_silent. destruct answer; [apply silent_fail | apply silent_ret].
Qed.

End Calls.

Section Frame.

Lemma keeps_ret {A} (a : A) : keeps (ret a).
Proof. intros st. reflexivity. Qed.

Lemma keeps_fail {A} (e : error) : keeps (@fail A e).
Proof. intros st. reflexivity. Qed.

Lemma keeps_raise {A} (p : panic) : keeps (@raise A p).
Proof. intros st. reflexivity. Qed.

Lemma keeps_lift {A} (r : result A) : keeps (lift r).
Proof. intros st. reflexivity. Qed.

Lemma keeps_getData : keeps getData.
Proof. intros st. reflexivity. Qed.

Lemma keeps_record (c : Call) : keeps (record c).
Proof. intros st. reflexivity. Qed.

Lemma keeps_bind {A B} (m : M A) (k : A -> M B) :
  keeps m -> (forall a, keeps (k a)) -> keeps (bind m k).
Proof.
  intros Hm Hk st. unfold bind. specialize (Hm st).
  destruct (m st) as [[a | e | p] st1]; cbn [fst snd] in *;
    [rewrite Hk |..]; exact Hm.
Qed.

Lemma keeps_catch {A} (m : M A) : keeps m -> keeps (catch m).
Proof.
  intros Hm st. unfold catch. specialize (Hm st).
  destruct (m st) as [[a | e | p] st1]; exact Hm.
Qed.

Lemma keeps_call {A} (c : Call) (answer : error + A) : keeps (call c answer).
Proof.
  unfold call. apply keeps_bind; [apply keeps_record |].
  intros _. destruct answer; [apply keeps_fail | apply keeps_ret].
Qed.

Lemma keeps_call_ (c : Call) (answer : option error) : keeps (call_ c answer).
Proof.
  unfold call_. apply keeps_bind; [apply keeps_record |].
  intros _. destruct answer; [apply keeps_fail | apply keeps_ret].
Qed.

End Frame.

Ltac only_step :=
  first
    [ simple apply only_call; reflexivity
    | simple apply only_call_; reflexivity
    | simple apply only_record; reflexivity
    | solve [ simple apply only_silent; silence ]
    | simple apply only_catch
    | simple apply only_bind; [| intros ?]
    | match goal with
      | |- only _ (match ?x with _ => _ end) => destruct x
      end ].

Ltac keeps_step :=
  first
    [ simple apply keeps_call | simple apply keeps_call_
    | simple apply keeps_ret | simple apply keeps_fail | simple apply keeps_raise
    | simple apply keeps_lift | simple apply keeps_getData
    | simple apply keeps_record | simple apply keeps_catch
    | simple apply keeps_bind; [| intros ?]
    | match goal with
      | |- keeps (match ?x with _ => _ end) => destruct x
      end ].

Ltac open_operation :=
  unfold void,
    resourceVSphereVAppContainerImport, resourceVSphereVAppContainerCreate,
    resourceVSphereVAppContainerRead, resourceVSphereVAppContainerUpdate,
    resourceVSphereVAppContainerDelete, resourceVSphereVAppContainerClient,
    resourceVSphereVAppContainerValidateEmpty,
    resourceVSphereVAppContainerApplyTags, resourceVSphereVAppContainerReadTags,
    resourceVSphereVAppEntityCreate, resourceVSphereVAppEntityRead,
    resourceVSphereVAppEntityUpdate, resourceVSphereVAppEntityDelete,
    resourceVSphereVAppEntityFind, resourceVSphereVAppEntityClient,
    entityConfig,
    vappcontainer.FromPath, vappcontainer.FromID, vappcontainer.IsVApp,
    vappcontainer.Properties, vappcontainer.Create, vappcontainer.Update,
    vappcontainer.Delete, vappcontainer.HasChildren.

(** X3. The operations that look things up never change anything in vSphere:
    none of their calls creates, updates, destroys or moves an object, or
    applies tags. *)
Theorem readers_do_not_mutate (env : Env) (op : operation) :
  is_reader op = true ->
  only (fun c => negb (mutating c)) (perform env op).
Proof.
  destruct op; try discriminate; intros _; cbn [perform];
    repeat first [ only_step | progress open_operation ].
Qed.

Lemma readers_do_not_mutate_witness :
  only (fun c => negb (mutating c)) (perform Scenario.populated_app OpEntityRead).
Proof.
  exact (readers_do_not_mutate Scenario.populated_app OpEntityRead eq_refl).
Defined.

(** X4. The operations of [is_data_frame] return the resource data as
    they got them: the helper package never touches them, and the Delete
    handlers of both resources neither set an attribute nor change or clear
    the ID, whether they succeed or fail. *)
Theorem data_frame (env : Env) (op : operation) (st : St) :
  is_data_frame op = true ->
  rd (snd (perform env op st)) = rd st.
Proof.
  intros H. revert st. change (keeps (perform env op)).
  destruct op; try discriminate; cbn [perform];
    repeat first
      [ keeps_step
      | progress open_operation
      | progress unfold expandVAppEntityConfigSpec, vAppEntityChild,
          resourceVSphereVAppEntityImport, Get, deref, index, as_string, as_int,
          as_VirtualApp ].
Qed.

Lemma data_frame_witness :
  rd (snd (perform Scenario.empty_app OpContainerDelete
             (mkSt (Demo.container_data "resgroup-v1") [])))
  = Demo.container_data "resgroup-v1".
Proof.
  exact (data_frame Scenario.empty_app OpContainerDelete
           (mkSt (Demo.container_data "resgroup-v1") []) eq_refl).
Defined.

(** X2. A handler that begins with the vCenter check stops there when the
    check fails: it returns the check's error, makes no other call and
    leaves the resource data alone. *)
Theorem handlers_need_vcenter (env : Env) (op : operation) (st : St) (e : error) :
  is_guarded op = true ->
  ValidateVirtualCenter env = Some e ->
  perform env op st = (Err e, mkSt (rd st) (trace st ++ [CValidateVirtualCenter])).
Proof.
  intros Hop Hvc.
  destruct op; try discriminate; cbn [perform];
    unfold void, resourceVSphereVAppContainerImport,
      resourceVSphereVAppContainerCreate, resourceVSphereVAppContainerRead,
      resourceVSphereVAppContainerUpdate, resourceVSphereVAppContainerDelete,
      resourceVSphereVAppEntityCreate, resourceVSphereVAppEntityRead,
      resourceVSphereVAppEntityUpdate, resourceVSphereVAppEntityDelete,
      resourceVSphereVAppContainerClient, call_, record;
    unfold bind at 1; try unfold bind at 1; try unfold bind at 1;
    rewrite Hvc; reflexivity.
Qed.

Lemma handlers_need_vcenter_witness :
  perform Scenario.esxi OpEntityCreate (mkSt (Demo.entity_data "") [])
  = (Err Scenario.not_vcenter, mkSt (Demo.entity_data "") [CValidateVirtualCenter]).
Proof.
  exact (handlers_need_vcenter Scenario.esxi OpEntityCreate
           (mkSt (Demo.entity_data "") []) Scenario.not_vcenter eq_refl eq_refl).
Defined.

(** Case analysis on the answers a run depends on, innermost first. *)
Ltac case_answers :=
  repeat match goal with
         | |- context [match ?x with _ => _ end] =>
             lazymatch x with
             | context [match _ with _ => _ end] => fail
             | _ => destruct x; cbn
             end
         end.

(** ** The Update handlers *)

(** X5. Neither Update handler transmits a setting.  Whatever the
    configuration, an update call of [resourceVSphereVAppContainerUpdate]
    or of [resourceVSphereVAppEntityUpdate] carries the empty spec, and no
    run creates or destroys anything.  Both handlers ask the finder for the
    object whose reference value is the whole resource ID; for an entity,
    whose ID has the form container:member, that is not the container. *)
Theorem Update_sends_no_settings (env : Env) (d : ResourceData) :
  only sends_no_settings (resourceVSphereVAppContainerUpdate env) /\
  only sends_no_settings (resourceVSphereVAppEntityUpdate env) /\
  (ValidateVirtualCenter env = None ->
   exists rest,
     calls (resourceVSphereVAppEntityUpdate env) d =
       CValidateVirtualCenter
       :: CFinderObjectReference (mkRef "VirtualApp" (Id d)) :: rest).
Proof.
  split; [| split].
  - repeat first [ only_step | progress open_operation ].
  - repeat first [ only_step | progress open_operation ].
  - intros Hvc.
    unfold resourceVSphereVAppEntityUpdate, resourceVSphereVAppContainerClient,
      resourceVSphereVAppContainerApplyTags, vappcontainer.FromID,
      vappcontainer.Update.
    unfold_monad. cbn. rewrite Hvc. cbn.
    case_answers; eexists; reflexivity.
Qed.

Lemma Update_sends_no_settings_witness :
  exists rest,
    calls (resourceVSphereVAppEntityUpdate Scenario.populated_app)
          (Demo.entity_data "resgroup-v1:vm-2") =
      CValidateVirtualCenter
      :: CFinderObjectReference (mkRef "VirtualApp" "resgroup-v1:vm-2") :: rest.
Proof.
  exact (proj2 (proj2 (Update_sends_no_settings Scenario.populated_app
                         (Demo.entity_data "resgroup-v1:vm-2"))) eq_refl).
Defined.

(** ** The container's Read, Delete and Import *)

(** X6. When the finder does not find the container, the Read handler makes no
    further call.  If the failure is a not-found fault it clears the
    resource ID, keeps the attributes and returns nil; any other failure
    is returned, with the resource data as they were. *)
Theorem container_Read_gone (env : Env) (d : ResourceData) (e : error) :
  ValidateVirtualCenter env = None ->
  finder_ObjectReference env (mkRef "VirtualApp" (Id d)) = inl e ->
  run (resourceVSphereVAppContainerRead env) d =
    ( (if IsManagedObjectNotFoundError env e then Ok tt else Err e),
      mkSt (mkResourceData (if IsManagedObjectNotFoundError env e then "" else Id d)
                           (attrs d))
           [CValidateVirtualCenter;
            CFinderObjectReference (mkRef "VirtualApp" (Id d))] ).
Proof.
  intros Hvc Hfind.
  unfold resourceVSphereVAppContainerRead, resourceVSphereVAppContainerClient,
    vappcontainer.FromID.
  unfold_monad. cbn [fst snd rd trace app]. rewrite Hvc. cbn [fst snd rd trace app].
  rewrite Hfind. cbn [fst snd rd trace app].
  destruct (IsManagedObjectNotFoundError env e); [reflexivity |].
  destruct d. reflexivity.
Qed.

Lemma container_Read_gone_witness :
  run (resourceVSphereVAppContainerRead Scenario.empty_app)
      (Demo.container_data "resgroup-v9") =
    ( Ok tt,
      mkSt (mkResourceData "" (attrs (Demo.container_data "resgroup-v9")))
           [CValidateVirtualCenter;
            CFinderObjectReference (mkRef "VirtualApp" "resgroup-v9")] ).
Proof.
  exact (container_Read_gone Scenario.empty_app (Demo.container_data "resgroup-v9")
           Demo.not_found eq_refl eq_refl).
Defined.

(** X7. A container that was found and has neither virtual machines nor child
    pools is destroyed: the Delete handler issues the destroy call and, when
    that yields a task, waits for it; its result is the failure of one of
    the two, or nil. *)
Theorem container_Delete_empty (env : Env) (d : ResourceData)
    (va : VirtualApp) (props : mo_VirtualApp) :
  ValidateVirtualCenter env = None ->
  finder_ObjectReference env (mkRef "VirtualApp" (Id d))
    = inr (mkObject KVirtualApp va) ->
  VirtualApp_Properties env (Reference va) = inr props ->
  Vm props = [] -> ResourcePool_ResourcePool props = [] ->
  run (resourceVSphereVAppContainerDelete env) d =
    match VirtualApp_Destroy env va with
    | inl e =>
        (Err e, mkSt d [CValidateVirtualCenter;
                        CFinderObjectReference (mkRef "VirtualApp" (Id d));
                        CProperties (Reference va); CDestroy va])
    | inr task =>
        (match Task_Wait env task with Some e => Err e | None => Ok tt end,
         mkSt d [CValidateVirtualCenter;
                 CFinderObjectReference (mkRef "VirtualApp" (Id d));
                 CProperties (Reference va); CDestroy va; CTaskWait task])
    end.
Proof.
  intros Hvc Hfind Hprops Hvm Hrp.
  unfold resourceVSphereVAppContainerDelete, resourceVSphereVAppContainerClient,
    resourceVSphereVAppContainerValidateEmpty, vappcontainer.FromID,
    vappcontainer.HasChildren, vappcontainer.Properties, vappcontainer.Delete.
  unfold_monad. cbn. rewrite Hvc. cbn. rewrite Hfind. cbn. rewrite Hprops. cbn.
  rewrite Hvm, Hrp. cbn.
  destruct (VirtualApp_Destroy env va) as [e | task]; cbn; [reflexivity |].
  destruct (Task_Wait env task); reflexivity.
Qed.

Lemma container_Delete_empty_witness :
  run (resourceVSphereVAppContainerDelete Scenario.empty_app)
      (Demo.container_data "resgroup-v1") =
    (Ok tt,
     mkSt (Demo.container_data "resgroup-v1")
       [CValidateVirtualCenter;
        CFinderObjectReference (mkRef "VirtualApp" "resgroup-v1");
        CProperties (Reference Demo.app); CDestroy Demo.app;
        CTaskWait (mkTask (mkRef "Task" "task-1"))]).
Proof.
  exact (container_Delete_empty Scenario.empty_app (Demo.container_data "resgroup-v1")
           Demo.app (Demo.props [] []) eq_refl eq_refl eq_refl eq_refl eq_refl).
Defined.

(** X8. The importer takes the incoming ID as an inventory path.  When the
    finder knows that path, the ID becomes the reference value of the vApp
    found there and the one resource returned carries it, with the
    attributes untouched; when it does not, nothing is returned and the
    resource data are unchanged. *)
Theorem container_Import_by_path (env : Env) (d : ResourceData) :
  ValidateVirtualCenter env = None ->
  run (resourceVSphereVAppContainerImport env) d =
    match finder_VirtualApp env None (Id d) with
    | inr va =>
        let d' := mkResourceData (Value (Reference va)) (attrs d) in
        (Ok [d'], mkSt d' [CValidateVirtualCenter; CFinderVirtualApp None (Id d)])
    | inl e =>
        (Err e, mkSt d [CValidateVirtualCenter; CFinderVirtualApp None (Id d)])
    end.
Proof.
  intros Hvc.
  unfold resourceVSphereVAppContainerImport, resourceVSphereVAppContainerClient,
    vappcontainer.FromPath.
  unfold_monad. cbn. rewrite Hvc. cbn.
  destruct (finder_VirtualApp env None (Id d)); reflexivity.
Qed.

Lemma container_Import_by_path_witness :
  run (resourceVSphereVAppContainerImport Scenario.empty_app)
      (mkResourceData "/dc1/host/cluster1/Resources/app" ∅) =
    (Ok [mkResourceData "resgroup-v1" ∅],
     mkSt (mkResourceData "resgroup-v1" ∅)
       [CValidateVirtualCenter;
        CFinderVirtualApp None "/dc1/host/cluster1/Resources/app"]).
Proof.
  exact (container_Import_by_path Scenario.empty_app
           (mkResourceData "/dc1/host/cluster1/Resources/app" ∅) eq_refl).
Defined.

(** ** The entity's records: removal and lookup *)

Lemma Delete_range_acc (vmo : ManagedObjectReference)
    (l el r : list VAppEntityConfigInfo) :
  resourceVSphereVAppEntityDelete_range vmo el l = Ok r ->
  Forall (fun e => Key e <> None) l /\ r = (el ++ without_key vmo l)%list.
Proof.
  revert el. induction l as [| e l IH]; intros el; cbn.
  - intros [= <-]. split; [constructor | symmetry; apply app_nil_r].
  - destruct (Key e) as [k |] eqn:Hk; [| discriminate].
    intros H. destruct (IH _ H) as [Hall ->]. split.
    + constructor; [congruence | exact Hall].
    + unfold without_key. cbn. try rewrite Hk.
      destruct (decide (k = vmo)) as [-> | Hne].
      * rewrite !bool_decide_eq_false_2 by (intros Hc; apply Hc; reflexivity).
        reflexivity.
      * rewrite !bool_decide_eq_true_2 by congruence.
        rewrite <- app_assoc. reflexivity.
Qed.

Lemma without_key_keyed (vmo : ManagedObjectReference) (l : list VAppEntityConfigInfo) :
  Forall (fun e => Key e <> None) l ->
  Forall (fun e => Key e <> None /\ Key e <> Some vmo) (without_key vmo l).
Proof.
  unfold without_key. induction 1 as [| e l He _ IH]; cbn; [constructor |].
  destruct (bool_decide (Key e <> Some vmo)) eqn:Hb; [| exact IH].
  constructor; [| exact IH]. split; [exact He |].
  apply bool_decide_eq_true in Hb. exact Hb.
Qed.

Lemma without_key_id (vmo : ManagedObjectReference) (l : list VAppEntityConfigInfo) :
  Forall (fun e => Key e <> Some vmo) l -> without_key vmo l = l.
Proof.
  unfold without_key. induction 1 as [| e l He _ IH]; cbn; [reflexivity |].
  rewrite bool_decide_eq_true_2 by exact He. rewrite IH. reflexivity.
Qed.

Lemma without_key_length (vmo : ManagedObjectReference) (l : list VAppEntityConfigInfo) :
  (length (without_key vmo l) <= length l)%nat.
Proof.
  unfold without_key. induction l as [| e l IH]; cbn; [lia |].
  destruct (bool_decide _); cbn; lia.
Qed.

Lemma EntityFromKey_range_found (k : string) (l : list VAppEntityConfigInfo)
    (e : VAppEntityConfigInfo) :
  vappcontainer.EntityFromKey_range k l = Ok (Some e) ->
  In e l /\ exists r, Key e = Some r /\ Value r = k.
Proof.
  induction l as [| x l IH]; cbn; [discriminate |].
  destruct (Key x) as [r |] eqn:Hr; [| discriminate].
  destruct (String.eqb_spec (Value r) k) as [Heq | Hne].
  - intros [= <-]. split; [left; reflexivity | eauto].
  - intros H. destruct (IH H) as [Hin Hkey]. split; [right; exact Hin | exact Hkey].
Qed.

(** X11. The loop of the entity's Delete handler.  When it completes, every
    record it keeps has a key other than the target's reference, it keeps
    all of the list if the target is not in it, running it again changes
    nothing, and a lookup of the target's key value in what it keeps finds
    nothing, or else a record whose key has that value under another
    type. *)
Theorem Delete_range_removes (vmo : ManagedObjectReference)
    (l el : list VAppEntityConfigInfo) :
  resourceVSphereVAppEntityDelete_range vmo [] l = Ok el ->
  Forall (fun e => Key e <> None /\ Key e <> Some vmo) el /\
  (length el <= length l)%nat /\
  (Forall (fun e => Key e <> Some vmo) l -> el = l) /\
  resourceVSphereVAppEntityDelete_range vmo [] el = Ok el /\
  (vappcontainer.EntityFromKey_range (Value vmo) el = Ok None \/
   exists e k,
     vappcontainer.EntityFromKey_range (Value vmo) el = Ok (Some e) /\
     Key e = Some k /\ Value k = Value vmo /\ Type_ k <> Type_ vmo).
Proof.
  intros H. destruct (Delete_range_acc _ _ _ _ H) as [Hall ->]. cbn [app].
  pose proof (without_key_keyed vmo l Hall) as Hkept.
  split; [exact Hkept |]. split; [apply without_key_length |].
  split; [apply without_key_id |]. split.
  - rewrite resourceVSphereVAppEntityDelete_range_filter.
    + cbn [app]. f_equal. apply without_key_id.
      eapply Forall_impl; [exact Hkept |]. intros e [_ He]. exact He.
    + eapply Forall_impl; [exact Hkept |]. intros e [He _]. exact He.
  - rewrite EntityFromKey_range_find
      by (eapply Forall_impl; [exact Hkept |]; intros e [He _]; exact He).
    destruct (first_with_key (Value vmo) (without_key vmo l)) as [e |] eqn:Hfind;
      [| left; reflexivity].
    right. unfold first_with_key in Hfind.
    apply find_some in Hfind as [Hin Hval].
    rewrite Forall_forall in Hkept.
    destruct (Hkept e (proj2 (list_elem_of_In _ _) Hin)) as [Hsome Hne].
    unfold has_key_value in Hval.
    destruct (Key e) as [k |] eqn:Hk; [| contradiction].
    apply String.eqb_eq in Hval.
    exists e, k. repeat split; try reflexivity; try assumption.
    intros Hty. apply Hne. f_equal.
    destruct k, vmo; cbn in *; congruence.
Qed.

Lemma Delete_range_removes_witness :
  resourceVSphereVAppEntityDelete_range (Reference Demo.web) []
    [Demo.member (Some Demo.db_ref) 1] = Ok [Demo.member (Some Demo.db_ref) 1].
Proof.
  exact (proj1 (proj2 (proj2 (proj2 (Delete_range_removes (Reference Demo.web)
           Scenario.two_members [Demo.member (Some Demo.db_ref) 1] eq_refl))))).
Defined.

(** X12. A lookup in the list that Create sends.  With a key on every existing
    record, the key value of the appended record finds the first existing
    record that already has that key value, and the appended record only
    when there is none: Create appends without looking for one. *)
Theorem EntityFromKey_after_append (l : list VAppEntityConfigInfo)
    (new : VAppEntityConfigInfo) (mor : ManagedObjectReference) :
  Forall (fun e => Key e <> None) l ->
  Key new = Some mor ->
  vappcontainer.EntityFromKey_range (Value mor) (l ++ [new])%list =
    Ok (Some (default new (first_with_key (Value mor) l))).
Proof.
  intros Hall Hnew. unfold first_with_key.
  induction Hall as [| e l He _ IH]; cbn.
  - rewrite Hnew, String.eqb_refl. reflexivity.
  - unfold has_key_value at 1. destruct (Key e) as [k |]; [| contradiction].
    destruct (String.eqb (Value k) (Value mor)); [reflexivity | exact IH].
Qed.

Lemma EntityFromKey_after_append_witness :
  vappcontainer.EntityFromKey_range "vm-2"
    (Scenario.two_members ++ [Demo.member (Some (Reference Demo.web)) 7])%list
  = Ok (Some (Demo.member (Some (Reference Demo.web)) 2)).
Proof.
  refine (EntityFromKey_after_append Scenario.two_members
           (Demo.member (Some (Reference Demo.web)) 7) (Reference Demo.web) _ eq_refl).
  repeat constructor; discriminate.
Defined.

(** ** The entity's Create, then Find and Read *)

#[local] Arguments flattenVAppEntityConfigSpec : simpl never.

Lemma contains_separator (sep : ascii) (a b : string) :
  contains sep (a +:+ String sep b) = true.
Proof.
  induction a as [| c a IH].
  - change (EmptyString +:+ String sep b) with (String sep b).
    cbn [contains]. rewrite Ascii.eqb_refl. reflexivity.
  - change (String c a +:+ String sep b) with (String c (a +:+ String sep b)).
    cbn [contains]. rewrite IH. apply orb_true_r.
Qed.

(** The whole run of Create once its four lookups succeed. *)
Lemma resourceVSphereVAppEntityCreate_run
    (env : Env) (d : ResourceData)
    (container : VirtualApp) (mo : mo_VirtualApp)
    (target : VirtualMachine) (vmp : mo_VirtualMachine) :
  ValidateVirtualCenter env = None ->
  finder_ObjectReference env (mkRef "VirtualApp" (string_attr d "container_id"))
    = inr (mkObject KVirtualApp container) ->
  VirtualApp_Properties env (Reference container) = inr mo ->
  virtualmachine_FromUUID env (string_attr d "target_id") = inr target ->
  virtualmachine_Properties env target = inr vmp ->
  exists r calls,
    run (resourceVSphereVAppEntityCreate env) d =
      (r, mkSt (mkResourceData
                  (Value (Reference container) +:+ ":" +:+ Value (Reference target))
                  (attrs d)) calls).
Proof.
  intros Hvc Hfind Hprops Huuid Hvm.
  unfold resourceVSphereVAppEntityCreate, resourceVSphereVAppContainerClient,
    vappcontainer.FromID, vappcontainer.Properties, vappcontainer.Update,
    entityConfig.
  unfold_monad. cbn. rewrite Hvc. cbn. entity_keys. cbn.
  rewrite Hfind. cbn. rewrite Hprops. cbn. entity_keys. cbn.
  rewrite Huuid. cbn. rewrite Hvm. cbn. entity_keys. cbn.
  destruct (VirtualApp_UpdateConfig env container _); eexists _, _; reflexivity.
Qed.

(** X13. Create and Find agree on the resource ID.  Once the lookups of Create
    succeed, and whether or not the update it sends is accepted, the ID is
    the container's reference value, a ':' and the target's reference value,
    and the attributes are untouched.  Find never fails on that ID with an
    index out of range; and when the container's reference value has no ':'
    in it, Find looks up that container and, in it, the member whose key
    value is the target's reference value. *)
Theorem Create_then_Find
    (env : Env) (d : ResourceData)
    (container : VirtualApp) (mo : mo_VirtualApp)
    (target : VirtualMachine) (vmp : mo_VirtualMachine) :
  ValidateVirtualCenter env = None ->
  finder_ObjectReference env (mkRef "VirtualApp" (string_attr d "container_id"))
    = inr (mkObject KVirtualApp container) ->
  VirtualApp_Properties env (Reference container) = inr mo ->
  virtualmachine_FromUUID env (string_attr d "target_id") = inr target ->
  virtualmachine_Properties env target = inr vmp ->
  let d' := data (resourceVSphereVAppEntityCreate env) d in
  Id d' = Value (Reference container) +:+ ":" +:+ Value (Reference target) /\
  attrs d' = attrs d /\
  outcome (resourceVSphereVAppEntityFind env) d' <> Panic IndexOutOfRange /\
  (contains colon (Value (Reference container)) = false ->
   run (resourceVSphereVAppEntityFind env) d' =
   run (lookup_member env (Value (Reference container)) (Value (Reference target))) d').
Proof.
  intros Hvc Hfind Hprops Huuid Hvm d'.
  destruct (resourceVSphereVAppEntityCreate_run env d container mo target vmp
              Hvc Hfind Hprops Huuid Hvm) as (r & cs & Hrun).
  assert (Hd : d' = mkResourceData
                 (Value (Reference container) +:+ ":" +:+ Value (Reference target))
                 (attrs d)).
  { unfold d', data. rewrite Hrun. reflexivity. }
  rewrite Hd. cbn [Id attrs].
  split; [reflexivity |]. split; [reflexivity |]. split.
  - pose proof (contains_separator colon (Value (Reference container))
                  (Value (Reference target))) as Hc.
    apply contains_split in Hc as (cid & eid & Hid & Hcid).
    unfold outcome, run. rewrite resourceVSphereVAppEntityFind_parts. cbn [rd Id].
    change (Value (Reference container) +:+ ":" +:+ Value (Reference target))
      with (Value (Reference container) +:+ String colon (Value (Reference target))).
    rewrite Hid, (SplitN_first_separator _ _ _ Hcid).
    apply (lookup_member_no_index_panic env cid eid).
  - intros Hcolon. unfold run.
    rewrite resourceVSphereVAppEntityFind_parts. cbn [rd Id].
    change (Value (Reference container) +:+ ":" +:+ Value (Reference target))
      with (Value (Reference container) +:+ String colon (Value (Reference target))).
    rewrite (SplitN_first_separator _ _ _ Hcolon). reflexivity.
Qed.

Lemma Create_then_Find_witness :
  outcome (resourceVSphereVAppEntityFind Scenario.populated_app)
          (data (resourceVSphereVAppEntityCreate Scenario.populated_app)
                (Demo.entity_data ""))
  <> Panic IndexOutOfRange.
Proof.
  exact (proj1 (proj2 (proj2 (Create_then_Find Scenario.populated_app
           (Demo.entity_data "") Demo.app (Demo.props Scenario.two_members [])
           Demo.web (mkMoVirtualMachine (Reference Demo.web))
           eq_refl eq_refl eq_refl eq_refl eq_refl)))).
Defined.

(** X14. The struct literal of Create never panics: each attribute it reads is in
    the schema with the type it asserts.  The record it yields is keyed by
    the given reference, and its three numbers are the configured ones
    reduced to 32 bits: always within the [int32] range, congruent to the
    configured number modulo 2^32, and equal to it when it fits. *)
Theorem entityConfig_total (env : Env) (mor : ManagedObjectReference) (st : St) :
  exists r,
    entityConfig env mor st = (Ok r, st) /\
    Key r = Some mor /\
    StartAction r = string_attr (rd st) "start_action" /\
    StopAction r = string_attr (rd st) "stop_action" /\
    Forall (fun p : Z * Z =>
              - 2 ^ 31 <= p.1 < 2 ^ 31 /\
              (p.1 - p.2) mod 2 ^ 32 = 0 /\
              (- 2 ^ 31 <= p.2 < 2 ^ 31 -> p.1 = p.2))
      [ (StartOrder r, int_attr (rd st) "start_order");
        (StartDelay r, int_attr (rd st) "start_delay");
        (StopDelay r, int_attr (rd st) "stop_delay") ].
Proof.
  eexists. split.
  - unfold entityConfig. unfold_monad. cbn. entity_keys. cbn. reflexivity.
  - cbn [Key StartAction StopAction StartOrder StartDelay StopDelay].
    split; [reflexivity |]. split; [reflexivity |]. split; [reflexivity |].
    assert (Hint : forall x,
               - 2 ^ 31 <= int32 x < 2 ^ 31 /\
               (int32 x - x) mod 2 ^ 32 = 0 /\
               (- 2 ^ 31 <= x < 2 ^ 31 -> int32 x = x)).
    { intros x. unfold int32. split; [| split].
      - pose proof (Z.mod_pos_bound (x + 2 ^ 31) (2 ^ 32) ltac:(lia)). lia.
      - replace ((x + 2 ^ 31) mod 2 ^ 32 - 2 ^ 31 - x)
          with ((x + 2 ^ 31) mod 2 ^ 32 - (x + 2 ^ 31)) by lia.
        rewrite Zminus_mod, Z.mod_mod by lia.
        rewrite Z.sub_diag. reflexivity.
      - intros H. rewrite Z.mod_small by lia. lia. }
    repeat constructor; apply Hint.
Qed.

#[local] Arguments resourceVSphereVAppEntityFind : simpl never.

(** The run of Find on an ID of the form container:member whose container
    is found. *)
Lemma resourceVSphereVAppEntityFind_run (env : Env) (st : St) (cid eid : string)
    (va : VirtualApp) (p : mo_VirtualApp) :
  Id (rd st) = cid +:+ ":" +:+ eid ->
  contains colon cid = false ->
  finder_ObjectReference env (mkRef "VirtualApp" cid) = inr (mkObject KVirtualApp va) ->
  VirtualApp_Properties env (Reference va) = inr p ->
  resourceVSphereVAppEntityFind env st =
    (vappcontainer.EntityFromKey eid p,
     mkSt (rd st) (trace st ++ [CFinderObjectReference (mkRef "VirtualApp" cid);
                                CProperties (Reference va)])).
Proof.
  intros Hid Hcid Hfind Hprops.
  rewrite resourceVSphereVAppEntityFind_parts, Hid.
  change (cid +:+ ":" +:+ eid) with (cid +:+ String colon eid).
  rewrite (SplitN_first_separator _ _ _ Hcid).
  unfold vappcontainer.FromID, vappcontainer.Properties.
  unfold_monad. cbn. rewrite Hfind. cbn. rewrite Hprops. cbn.
  rewrite <- app_assoc. reflexivity.
Qed.

Lemma flattenVAppEntityConfigSpec_inv (env : Env) (obj : VAppEntityConfigInfo)
    (st st' : St) :
  flattenVAppEntityConfigSpec env obj st = (Ok tt, st') ->
  Id (rd st') = Id (rd st) /\ trace st' = trace st /\
  (forall k v, In (k, v) (flat_entity obj) -> attrs (rd st') !! k = Some v) /\
  (forall k, ~ In k (map fst (flat_entity obj)) ->
     attrs (rd st') !! k = attrs (rd st) !! k).
Proof.
  unfold flattenVAppEntityConfigSpec. intros H.
  apply SetBatch_inv in H. subst st'. cbn [rd trace Id attrs].
  split; [reflexivity |]. split; [reflexivity |]. split.
  - intros k v Hin. unfold flat_entity in Hin.
    repeat (destruct Hin as [[= <- <-] | Hin]); [ .. | contradiction ].
    all: rewrite lookup_union, list_to_map_assoc;
      cbn [assoc String.eqb Ascii.eqb Bool.eqb]; apply union_Some_l.
  - intros k Hk. rewrite lookup_union, list_to_map_assoc.
    rewrite assoc_None by exact Hk.
    rewrite (left_id_L None (∪)). reflexivity.
Qed.

Lemma flattenVAppEntityConfigSpec_ok (env : Env) (obj : VAppEntityConfigInfo) (st : St) :
  Forall (fun kv => Set_error env kv.1 kv.2 = None) (flat_entity obj) ->
  fst (flattenVAppEntityConfigSpec env obj st) = Ok tt.
Proof.
  intros H. rewrite Forall_forall in H.
  unfold flattenVAppEntityConfigSpec. rewrite SetBatch_ok; [reflexivity |].
  intros k v Hkv. rewrite list_to_map_assoc in Hkv.
  apply assoc_Some_In in Hkv. apply (H (k, v)), list_elem_of_In. exact Hkv.
Qed.

(** The run of the entity's Read on an ID of the form container:member
    whose container is found. *)
Lemma resourceVSphereVAppEntityRead_run (env : Env) (d : ResourceData)
    (cid eid : string) (va : VirtualApp) (p : mo_VirtualApp) :
  Id d = cid +:+ ":" +:+ eid ->
  contains colon cid = false ->
  ValidateVirtualCenter env = None ->
  finder_ObjectReference env (mkRef "VirtualApp" cid) = inr (mkObject KVirtualApp va) ->
  VirtualApp_Properties env (Reference va) = inr p ->
  let cs := [CValidateVirtualCenter;
             CFinderObjectReference (mkRef "VirtualApp" cid);
             CProperties (Reference va)] in
  run (resourceVSphereVAppEntityRead env) d =
    match vappcontainer.EntityFromKey eid p with
    | Panic x => (Panic x, mkSt d cs)
    | Err e => (Err e, mkSt (after_target_id env d) cs)
    | Ok None =>
        (Ok tt, mkSt (mkResourceData "" (attrs (after_target_id env d))) cs)
    | Ok (Some entity) =>
        flattenVAppEntityConfigSpec env entity (mkSt (after_target_id env d) cs)
    end.
Proof.
  intros Hid Hcid Hvc Hfind Hprops cs.
  unfold resourceVSphereVAppEntityRead, resourceVSphereVAppContainerClient, Set_.
  unfold_monad. cbn. rewrite Hvc. cbn.
  rewrite (resourceVSphereVAppEntityFind_run env (mkSt d [CValidateVirtualCenter])
             cid eid va p Hid Hcid Hfind Hprops).
  cbn. unfold after_target_id.
  destruct (vappcontainer.EntityFromKey eid p) as [[entity |] | e | x]; cbn;
    entity_keys; cbn;
    try (destruct (Set_error env "target_id" _); cbn); try reflexivity.
  all: destruct d; reflexivity.
Qed.

Lemma after_target_id_frame (env : Env) (d : ResourceData) (k : string) :
  k <> "target_id" ->
  Id (after_target_id env d) = Id d /\
  attrs (after_target_id env d) !! k = attrs d !! k.
Proof.
  intros Hk. unfold after_target_id.
  destruct (Set_error env "target_id" _); cbn; [split; reflexivity |].
  split; [reflexivity |]. apply lookup_insert_ne. congruence.
Qed.

(** X15. Read after the member left the container.  When the container named
    in the resource ID is found, every record of it carries a key and none
    has the key value named in the ID, Read clears the resource ID and
    returns nil, after one finder call and one properties call; no
    attribute other than [target_id] changes. *)
Theorem entity_Read_member_gone (env : Env) (d : ResourceData)
    (cid eid : string) (va : VirtualApp) (p : mo_VirtualApp) :
  Id d = cid +:+ ":" +:+ eid ->
  contains colon cid = false ->
  ValidateVirtualCenter env = None ->
  finder_ObjectReference env (mkRef "VirtualApp" cid) = inr (mkObject KVirtualApp va) ->
  VirtualApp_Properties env (Reference va) = inr p ->
  Forall (keyed_other eid) (EntityConfig (VAppConfig p)) ->
  outcome (resourceVSphereVAppEntityRead env) d = Ok tt /\
  Id (data (resourceVSphereVAppEntityRead env) d) = "" /\
  calls (resourceVSphereVAppEntityRead env) d =
    [CValidateVirtualCenter;
     CFinderObjectReference (mkRef "VirtualApp" cid);
     CProperties (Reference va)] /\
  (forall k, k <> "target_id" ->
     attrs (data (resourceVSphereVAppEntityRead env) d) !! k = attrs d !! k).
Proof.
  intros Hid Hcid Hvc Hfind Hprops Hnone.
  unfold outcome, data, calls.
  rewrite (resourceVSphereVAppEntityRead_run env d cid eid va p Hid Hcid Hvc Hfind Hprops).
  assert (Hscan : vappcontainer.EntityFromKey eid p = Ok None).
  { unfold vappcontainer.EntityFromKey.
    rewrite <- (app_nil_r (EntityConfig (VAppConfig p))).
    rewrite EntityFromKey_range_skip by exact Hnone. reflexivity. }
  rewrite Hscan. cbn [fst snd rd trace Id attrs].
  repeat split; try reflexivity.
  intros k Hk. apply after_target_id_frame, Hk.
Qed.

Lemma entity_Read_member_gone_witness :
  outcome (resourceVSphereVAppEntityRead Scenario.populated_app)
          (Demo.entity_data "resgroup-v1:vm-7") = Ok tt /\
  Id (data (resourceVSphereVAppEntityRead Scenario.populated_app)
           (Demo.entity_data "resgroup-v1:vm-7")) = "".
Proof.
  assert (H : Forall (keyed_other "vm-7") Scenario.two_members).
  { repeat constructor; eexists; (split; [reflexivity | discriminate]). }
  pose proof (entity_Read_member_gone Scenario.populated_app
                (Demo.entity_data "resgroup-v1:vm-7") "resgroup-v1" "vm-7"
                Demo.app (Demo.props Scenario.two_members [])
                eq_refl eq_refl eq_refl eq_refl eq_refl H) as (Ho & Hi & _).
  split; assumption.
Defined.

(** X16. Read of a member that is there.  When the container named in the
    resource ID is found and the scan reaches a record with the key value
    named in the ID, Read makes one finder call and one properties call and
    keeps the ID; it returns nil whenever the SDK accepts the six values, and
    whenever it returns nil the six attributes of [flat_entity] hold the
    record's fields, while every attribute other than these and
    [target_id], [container_id] among them, is what it was. *)
Theorem entity_Read_member_found (env : Env) (d : ResourceData)
    (cid eid : string) (va : VirtualApp) (p : mo_VirtualApp)
    (pre post : list VAppEntityConfigInfo) (e : VAppEntityConfigInfo)
    (r : ManagedObjectReference) :
  Id d = cid +:+ ":" +:+ eid ->
  contains colon cid = false ->
  ValidateVirtualCenter env = None ->
  finder_ObjectReference env (mkRef "VirtualApp" cid) = inr (mkObject KVirtualApp va) ->
  VirtualApp_Properties env (Reference va) = inr p ->
  EntityConfig (VAppConfig p) = (pre ++ e :: post)%list ->
  Forall (keyed_other eid) pre ->
  Key e = Some r -> Value r = eid ->
  calls (resourceVSphereVAppEntityRead env) d =
    [CValidateVirtualCenter;
     CFinderObjectReference (mkRef "VirtualApp" cid);
     CProperties (Reference va)] /\
  (Forall (fun kv => Set_error env kv.1 kv.2 = None) (flat_entity e) ->
     outcome (resourceVSphereVAppEntityRead env) d = Ok tt) /\
  (outcome (resourceVSphereVAppEntityRead env) d = Ok tt ->
     Id (data (resourceVSphereVAppEntityRead env) d) = Id d /\
     (forall k v, In (k, v) (flat_entity e) ->
        attrs (data (resourceVSphereVAppEntityRead env) d) !! k = Some v) /\
     (forall k, k <> "target_id" -> ~ In k (map fst (flat_entity e)) ->
        attrs (data (resourceVSphereVAppEntityRead env) d) !! k = attrs d !! k)).
Proof.
  intros Hid Hcid Hvc Hfind Hprops Hlist Hpre Hkey Hval.
  unfold outcome, data, calls.
  rewrite (resourceVSphereVAppEntityRead_run env d cid eid va p Hid Hcid Hvc Hfind Hprops).
  assert (Hscan : vappcontainer.EntityFromKey eid p = Ok (Some e)).
  { unfold vappcontainer.EntityFromKey. rewrite Hlist.
    rewrite EntityFromKey_range_skip by exact Hpre.
    cbn. rewrite Hkey, Hval, String.eqb_refl. reflexivity. }
  rewrite Hscan.
  split; [| split].
  - pose proof (silent_SetBatch env
                  (list_to_map (flat_entity e))) as Hs.
    unfold flattenVAppEntityConfigSpec. unfold flat_entity in Hs.
    rewrite Hs. reflexivity.
  - intros Hset. apply flattenVAppEntityConfigSpec_ok, Hset.
  - destruct (flattenVAppEntityConfigSpec env e _) as [res st'] eqn:Hrun.
    cbn [fst snd]. intros ->.
    destruct (flattenVAppEntityConfigSpec_inv _ _ _ _ Hrun) as (Hi & _ & Hin & Hout).
    cbn [rd] in Hi, Hout.
    split; [| split].
    + rewrite Hi. apply (after_target_id_frame env d "x"). discriminate.
    + exact Hin.
    + intros k Hk Hnot. rewrite (Hout k Hnot).
      apply after_target_id_frame, Hk.
Qed.

Lemma entity_Read_member_found_witness :
  calls (resourceVSphereVAppEntityRead Scenario.populated_app)
        (Demo.entity_data "resgroup-v1:vm-2") =
    [CValidateVirtualCenter;
     CFinderObjectReference (mkRef "VirtualApp" "resgroup-v1");
     CProperties (Reference Demo.app)].
Proof.
  refine (proj1 (entity_Read_member_found Scenario.populated_app
            (Demo.entity_data "resgroup-v1:vm-2") "resgroup-v1" "vm-2"
            Demo.app (Demo.props Scenario.two_members [])
            [Demo.member (Some Demo.db_ref) 1] []
            (Demo.member (Some (Reference Demo.web)) 2) (Reference Demo.web)
            eq_refl eq_refl eq_refl eq_refl eq_refl eq_refl _ eq_refl eq_refl)).
  repeat constructor. eexists. split; [reflexivity | discriminate].
Defined.

(** X17. Read does not survive an ID without ':'.  After the vCenter check, the
    split in Find panics with an index out of range; Read does not recover
    from it, makes no lookup and leaves the resource data alone. *)
Theorem entity_Read_needs_separator (env : Env) (d : ResourceData) :
  ValidateVirtualCenter env = None ->
  contains colon (Id d) = false ->
  run (resourceVSphereVAppEntityRead env) d
  = (Panic IndexOutOfRange, mkSt d [CValidateVirtualCenter]).
Proof.
  intros Hvc Hc.
  unfold resourceVSphereVAppEntityRead, resourceVSphereVAppContainerClient.
  unfold_monad. cbn. rewrite Hvc. cbn.
  rewrite resourceVSphereVAppEntityFind_parts. cbn [rd].
  rewrite (SplitN_no_separator _ _ Hc). reflexivity.
Qed.

Lemma entity_Read_needs_separator_witness :
  run (resourceVSphereVAppEntityRead Scenario.populated_app)
      (Demo.entity_data "vm-2")
  = (Panic IndexOutOfRange, mkSt (Demo.entity_data "vm-2") [CValidateVirtualCenter]).
Proof.
  exact (entity_Read_needs_separator Scenario.populated_app (Demo.entity_data "vm-2")
           eq_refl eq_refl).
Defined.

(** ** The earlier revision of the entity's Create *)

#[local] Arguments Revision2.resourceVSphereVAppEntitySchema : simpl never.

Lemma Revision2_start_order (env : Env) (d : ResourceData) :
  vSphereTagAttributeKey env <> "start_order" ->
  customattribute_ConfigKey env <> "start_order" ->
  get_value (Revision2.resourceVSphereVAppEntitySchema env) d "start_order" = VNil.
Proof.
  intros Htags Hattr. unfold get_value, Revision2.resourceVSphereVAppEntitySchema.
  repeat (rewrite list_to_map_cons; cbn [fst snd];
          first [ rewrite lookup_insert_ne by discriminate
                | rewrite lookup_insert_ne by assumption ]).
  rewrite list_to_map_nil, lookup_empty. reflexivity.
Qed.

Lemma Revision2_string_key (env : Env) (d : ResourceData) (k : string) :
  k ∈ ["container_id"; "start_action"] ->
  get_value (Revision2.resourceVSphereVAppEntitySchema env) d k = VString (string_attr d k).
Proof.
  intros Hk. repeat (apply elem_of_cons in Hk as [-> | Hk]);
    [ .. | apply elem_of_nil in Hk; contradiction ];
    (eapply get_value_string;
     [ unfold Revision2.resourceVSphereVAppEntitySchema; lookup_schema | reflexivity ]).
Qed.

Lemma Revision2_int_key (env : Env) (d : ResourceData) :
  get_value (Revision2.resourceVSphereVAppEntitySchema env) d "start_delay"
  = VInt (int_attr d "start_delay").
Proof.
  eapply get_value_int;
    [ unfold Revision2.resourceVSphereVAppEntitySchema; lookup_schema | reflexivity ].
Qed.

(** X18. The second revision of the Create handler never sends an update.  Its
    schema has no [start_order] (the two keys taken from other packages
    being other names), so [d.Get("start_order")] is nil and the assertion
    to [int] panics: once the container and its properties are found, the
    handler panics while it builds the record, before any update call. *)
Theorem Revision2_Create_panics (env : Env) (d : ResourceData)
    (container : VirtualApp) (mo : mo_VirtualApp) :
  vSphereTagAttributeKey env <> "start_order" ->
  customattribute_ConfigKey env <> "start_order" ->
  ValidateVirtualCenter env = None ->
  finder_ObjectReference env (mkRef "VirtualApp" (string_attr d "container_id"))
    = inr (mkObject KVirtualApp container) ->
  VirtualApp_Properties env (Reference container) = inr mo ->
  run (Revision2.resourceVSphereVAppEntityCreate env) d =
    (Panic TypeAssertion,
     mkSt d [CValidateVirtualCenter;
             CFinderObjectReference (mkRef "VirtualApp" (string_attr d "container_id"));
             CProperties (Reference container)]).
Proof.
  intros Htags Hattr Hvc Hfind Hprops.
  unfold Revision2.resourceVSphereVAppEntityCreate, Revision2.entityConfig,
    resourceVSphereVAppContainerClient, vappcontainer.FromID,
    vappcontainer.Properties, vappcontainer.Update.
  unfold_monad. cbn. rewrite Hvc. cbn.
  rewrite !Revision2_string_key
    by (repeat first [ apply list_elem_of_here | apply list_elem_of_further ]).
  cbn. rewrite Hfind. cbn. rewrite Hprops. cbn.
  repeat (first
            [ rewrite Revision2_string_key
                by (repeat first [ apply list_elem_of_here | apply list_elem_of_further ])
            | rewrite Revision2_int_key
            | rewrite (Revision2_start_order env d Htags Hattr) ];
          cbn).
  reflexivity.
Qed.

Lemma Revision2_Create_panics_witness :
  run (Revision2.resourceVSphereVAppEntityCreate Scenario.populated_app)
      (Demo.entity_data "") =
    (Panic TypeAssertion,
     mkSt (Demo.entity_data "")
       [CValidateVirtualCenter;
        CFinderObjectReference (mkRef "VirtualApp" "resgroup-v1");
        CProperties (Reference Demo.app)]).
Proof.
  refine (Revision2_Create_panics Scenario.populated_app (Demo.entity_data "")
            Demo.app (Demo.props Scenario.two_members []) _ _
            eq_refl eq_refl eq_refl); discriminate.
Defined.

(** ** The container's Create: where the folder comes from *)

Lemma Split_first_separator (sep : ascii) (a b : string) :
  contains sep a = false ->
  Split sep (a +:+ String sep b) = a :: Split sep b.
Proof.
  induction a as [| c a IH]; intros H.
  - change (EmptyString +:+ String sep b) with (String sep b).
    cbn [Split]. rewrite Ascii.eqb_refl. reflexivity.
  - cbn [contains] in H. apply orb_false_iff in H as [Hc Hs].
    change (String c a +:+ String sep b) with (String c (a +:+ String sep b)).
    cbn [Split]. rewrite Hc, (IH Hs). reflexivity.
Qed.

Lemma Split_no_separator (sep : ascii) (s : string) :
  contains sep s = false -> Split sep s = [s].
Proof.
  induction s as [| c s IH]; [reflexivity |].
  cbn [contains Split]. intros H. apply orb_false_iff in H as [Hc Hs].
  rewrite Hc, (IH Hs). reflexivity.
Qed.

Lemma Split_head (sep : ascii) (s : string) :
  exists tl, Split sep s = before sep s :: tl.
Proof.
  induction s as [| c s [tl IH]]; cbn [Split before].
  - exists []. reflexivity.
  - destruct (Ascii.eqb c sep); [eexists; reflexivity |].
    rewrite IH. eexists. reflexivity.
Qed.

Lemma container_parent_folder (env : Env) :
  resourceVSphereVAppContainerSchema env !! "parent_folder"
  = Some (mkSchema TypeString false true false false None).
Proof. unfold resourceVSphereVAppContainerSchema. lookup_schema. Qed.

Lemma container_string_key (env : Env) (d : ResourceData) (k : string) :
  k ∈ ["name"; "parent_resource_pool_id"; "parent_folder"] ->
  get_value (resourceVSphereVAppContainerSchema env) d k = VString (string_attr d k).
Proof.
  intros Hk. repeat (apply elem_of_cons in Hk as [-> | Hk]);
    [ .. | apply elem_of_nil in Hk; contradiction ];
    (eapply get_value_string;
     [ unfold resourceVSphereVAppContainerSchema; lookup_schema | reflexivity ]).
Qed.

Ltac container_keys :=
  repeat first
    [ rewrite container_string_key
        by (repeat first [ apply list_elem_of_here | apply list_elem_of_further ])
    | rewrite container_parent_folder ].

(** X9. Where Create takes the folder from, once the parent pool is found.
    With a non-empty [parent_folder] the folder is looked up by that ID and
    no datacenter is asked for.  Without one, the datacenter is named by the
    second '/'-separated part of the parent pool's inventory path: the
    handler asks for the datacenter named by what follows the first '/' up
    to the next one, and it panics with an index out of range, before
    creating anything, when the path has no '/'. *)
Theorem container_Create_folder (env : Env) (d : ResourceData) (prp : ResourcePool) :
  ValidateVirtualCenter env = None ->
  resourcepool_FromID env (string_attr d "parent_resource_pool_id") = inr prp ->
  (string_attr d "parent_folder" <> "" ->
     exists rest,
       calls (resourceVSphereVAppContainerCreate env) d =
         CValidateVirtualCenter
         :: CResourcePoolFromID (string_attr d "parent_resource_pool_id")
         :: CFolderFromID (string_attr d "parent_folder") :: rest /\
       Forall (fun c => match c with
                        | CGetDatacenter _ | CFolderFromPath _ _ => False
                        | _ => True
                        end) rest) /\
  (string_attr d "parent_folder" = "" ->
   contains slash (InventoryPath prp) = false ->
     run (resourceVSphereVAppContainerCreate env) d =
       (Panic IndexOutOfRange,
        mkSt d [CValidateVirtualCenter;
                CResourcePoolFromID (string_attr d "parent_resource_pool_id")])) /\
  (string_attr d "parent_folder" = "" ->
   forall a b,
     InventoryPath prp = a +:+ "/" +:+ b -> contains slash a = false ->
     exists rest,
       calls (resourceVSphereVAppContainerCreate env) d =
         CValidateVirtualCenter
         :: CResourcePoolFromID (string_attr d "parent_resource_pool_id")
         :: CGetDatacenter (before slash b) :: rest).
Proof.
  intros Hvc Hpool.
  split; [| split].
  - intros Hpf.
    unfold resourceVSphereVAppContainerCreate, resourceVSphereVAppContainerClient,
      resourceVSphereVAppContainerApplyTags, expandVAppContainerConfigSpec,
      vappcontainer.Create.
    unfold_monad. cbn. rewrite Hvc. cbn. container_keys. cbn.
    rewrite Hpool. cbn. container_keys. cbn.
    rewrite bool_decide_eq_true_2 by congruence. cbn.
    destruct (folder_FromID env _); cbn;
      [eexists; split; [reflexivity | constructor] |].
    container_keys. cbn.
    case_answers; eexists; (split; [reflexivity | repeat constructor]).
  - intros Hpf Hslash.
    unfold resourceVSphereVAppContainerCreate, resourceVSphereVAppContainerClient.
    unfold_monad. cbn. rewrite Hvc. cbn. container_keys. cbn.
    rewrite Hpool. cbn. container_keys. cbn.
    rewrite Hpf. rewrite bool_decide_eq_false_2 by (intros H; apply H; reflexivity).
    cbn. rewrite (Split_no_separator _ _ Hslash). reflexivity.
  - intros Hpf a b Hpath Ha.
    unfold resourceVSphereVAppContainerCreate, resourceVSphereVAppContainerClient,
      resourceVSphereVAppContainerApplyTags, expandVAppContainerConfigSpec,
      vappcontainer.Create.
    unfold_monad. cbn. rewrite Hvc. cbn. container_keys. cbn.
    rewrite Hpool. cbn. container_keys. cbn.
    rewrite Hpf. rewrite bool_decide_eq_false_2 by (intros H; apply H; reflexivity).
    cbn. rewrite Hpath.
    change (a +:+ "/" +:+ b) with (a +:+ String slash b).
    rewrite (Split_first_separator _ _ _ Ha).
    destruct (Split_head slash b) as [tl ->]. cbn.
    destruct (getDatacenter env (before slash b)); cbn; [eexists; reflexivity |].
    destruct (folder_FromPath env _ _); cbn; [eexists; reflexivity |].
    container_keys. cbn.
    case_answers; eexists; reflexivity.
Qed.

Lemma container_Create_folder_witness :
  exists rest,
    calls (resourceVSphereVAppContainerCreate Scenario.empty_app)
          (Demo.container_data "") =
      CValidateVirtualCenter :: CResourcePoolFromID "resgroup-8"
      :: CGetDatacenter "dc1" :: rest.
Proof.
  exact (proj2 (proj2 (container_Create_folder Scenario.empty_app
           (Demo.container_data "")
           (mkCommon (mkRef "ResourcePool" "resgroup-8") "/dc1/host/cluster1/Resources")
           eq_refl eq_refl)) eq_refl
           "" "dc1/host/cluster1/Resources" eq_refl eq_refl).
Defined.

(** X10. The resource ID is set last.  With a parent folder configured and the
    pool, the folder and the expanded spec at hand, Create asks for a vApp
    with the configured name and an empty vApp spec.  When that succeeds,
    the ID becomes the new vApp's reference value only if the tag step
    succeeds as well; when the tag step fails, the error is returned and the
    resource data still carry the old ID, although the vApp exists. *)
Theorem container_Create_outcome (env : Env) (d : ResourceData)
    (prp : ResourcePool) (f : Folder) (rs : ResourceConfigSpec) (va : VirtualApp) :
  ValidateVirtualCenter env = None ->
  resourcepool_FromID env (string_attr d "parent_resource_pool_id") = inr prp ->
  string_attr d "parent_folder" <> "" ->
  folder_FromID env (string_attr d "parent_folder") = inr f ->
  expandResourcePoolConfigSpec env d = Some rs ->
  ResourcePool_CreateVApp env prp (string_attr d "name") rs (mkVAppConfigSpec []) (Some f)
    = inr va ->
  let created :=
    [CValidateVirtualCenter;
     CResourcePoolFromID (string_attr d "parent_resource_pool_id");
     CFolderFromID (string_attr d "parent_folder");
     CCreateVApp prp (string_attr d "name") rs (mkVAppConfigSpec []) (Some f);
     CTagsClientIfDefined d] in
  let done := mkResourceData (Value (Reference va)) (attrs d) in
  run (resourceVSphereVAppContainerCreate env) d =
    match tagsClientIfDefined env d with
    | inl e => (Err e, mkSt d created)
    | inr None => (Ok tt, mkSt done created)
    | inr (Some c) =>
        match processTagDiff env c d va with
        | Some e => (Err e, mkSt d (created ++ [CProcessTagDiff c d va]))
        | None => (Ok tt, mkSt done (created ++ [CProcessTagDiff c d va]))
        end
    end.
Proof.
  intros Hvc Hpool Hpf Hfolder Hexpand Hcreate created done.
  unfold resourceVSphereVAppContainerCreate, resourceVSphereVAppContainerClient,
    resourceVSphereVAppContainerApplyTags, expandVAppContainerConfigSpec,
    vappcontainer.Create.
  unfold_monad. cbn. rewrite Hvc. cbn. container_keys. cbn.
  rewrite Hpool. cbn. container_keys. cbn.
  rewrite bool_decide_eq_true_2 by congruence. cbn.
  rewrite Hfolder. cbn. container_keys. cbn.
  rewrite Hexpand. cbn. rewrite Hcreate. cbn.
  destruct (tagsClientIfDefined env d) as [e | [c |]]; cbn; try reflexivity.
  destruct (processTagDiff env c d va); reflexivity.
Qed.

Lemma container_Create_outcome_witness :
  run (resourceVSphereVAppContainerCreate Scenario.tagless) Scenario.container_in_folder =
    (Err Scenario.no_tags,
     mkSt Scenario.container_in_folder
       [CValidateVirtualCenter;
        CResourcePoolFromID "resgroup-8";
        CFolderFromID "group-v5";
        CCreateVApp (mkCommon (mkRef "ResourcePool" "resgroup-8")
                       "/dc1/host/cluster1/Resources")
          "app" (mkResourceConfigSpec (Demo.allocation 0) (Demo.allocation 0))
          (mkVAppConfigSpec []) (Some (mkCommon (mkRef "Folder" "group-v5") "/dc1/vm"));
        CTagsClientIfDefined Scenario.container_in_folder]).
Proof.
  refine (container_Create_outcome Scenario.tagless Scenario.container_in_folder
            (mkCommon (mkRef "ResourcePool" "resgroup-8") "/dc1/host/cluster1/Resources")
            (mkCommon (mkRef "Folder" "group-v5") "/dc1/vm")
            (mkResourceConfigSpec (Demo.allocation 0) (Demo.allocation 0))
            Demo.app eq_refl eq_refl _ eq_refl eq_refl eq_refl).
  vm_compute. discriminate.
Defined.
